(** * Hawksbill sea turtle dashboard: the data transforms of [sea_turtles.py]

    A shallow embedding of the pandas pipelines of [src/sea_turtles.py]
    ([load_data], [turtle_population_plot], [scatter_plot], [pie_plot],
    [map_heatmap], [filter_turtle_data]) and the properties the
    specification states about the four derived views they compute.

    Modelling conventions.
    - A data frame cell is [NaN] (pandas' null), a finite number or a
      string.  A finite float64 value is the rational it denotes; the
      infinities are outside the model.
    - Floating point arithmetic is not reproduced: the float64 mean pandas
      computes is a parameter ([FloatMean]) of which only what does not
      depend on rounding is known.
    - [astype(int)] on a float64 column is numpy's cast to int64: the
      truncation when it fits in 64 bits, the smallest int64 otherwise (what
      the conversion instruction of x86-64 returns).
    - A frame read by [pd.read_csv] has the seven columns of the data set and
      a [RangeIndex]: the label of a row is its position in the list.
    - Python exceptions are values of [exn]; a computation that may raise
      returns a [result].
    - [Series.sort_values] / [DataFrame.sort_values] use numpy's default
      [kind="quicksort"], which is documented as not stable.  The sort is
      therefore a parameter ([Sorter]) of which only the documented contract is
      known: the output is a permutation of the input and is ordered.
    - Where pandas versions differ the model follows pandas 2: the mean of
      an object column that holds a string raises [TypeError].
    - The plotly and folium objects are reduced to the data handed to them;
      of folium only the check of the map centre is modelled
      ([folium.Map] refuses a centre that is not a number). *)

From Stdlib Require Import List String Ascii ZArith QArith Bool Arith Lia Lqa.
From Stdlib Require Import Permutation SetoidPermutation Sorted SetoidList RelationClasses.
Import ListNotations.

(* ------------------------------------------------------------------ *)
(** ** Python values, exceptions and the error monad *)

Inductive cell : Type :=
| NaN
| Num (q : Q)
| Str (s : string).

Inductive exn : Type :=
  KeyError | TypeError | IndexError | ValueError | OverflowError.

Inductive result (A : Type) : Type :=
| Ok (a : A)
| Raise (e : exn).

Arguments Ok {A} a.
Arguments Raise {A} e.

Definition bind {A B : Type} (m : result A) (k : A -> result B) : result B :=
  match m with
  | Ok a => k a
  | Raise e => Raise e
  end.

Notation "x <- m ;; k" := (bind m (fun x => k))
  (at level 61, m at next level, right associativity).

Fixpoint mapM {A B : Type} (f : A -> result B) (l : list A) : result (list B) :=
  match l with
  | [] => Ok []
  | x :: t => y <- f x ;; ys <- mapM f t ;; Ok (y :: ys)
  end.

(** Boolean indexing [df[mask]] where computing the mask may raise: the mask
    is computed for every row before any row is selected. *)
Definition filterM {A : Type} (p : A -> result bool) (l : list A) : result (list A) :=
  mask <- mapM p l ;;
  Ok (map fst (filter snd (combine l mask))).

(* ------------------------------------------------------------------ *)
(** ** Data frames *)

(** One line of [Resources/seaturtles.csv], restricted to the columns the
    program reads. *)
Record row : Type := mkRow {
  date_year : cell;
  waterBody : cell;
  country : cell;
  decimalLatitude : cell;
  decimalLongitude : cell;
  sst : cell;
  sss : cell
}.

Definition DataFrame : Type := list row.

(** [df[name]]: the column labelled [name]; any other label is a [KeyError]. *)
Definition column_of (name : string) : option (row -> cell) :=
  if String.eqb name "date_year" then Some date_year
  else if String.eqb name "waterBody" then Some waterBody
  else if String.eqb name "country" then Some country
  else if String.eqb name "decimalLatitude" then Some decimalLatitude
  else if String.eqb name "decimalLongitude" then Some decimalLongitude
  else if String.eqb name "sst" then Some sst
  else if String.eqb name "sss" then Some sss
  else None.

Definition getitem (df : DataFrame) (name : string) : result (list cell) :=
  match column_of name with
  | Some proj => Ok (map proj df)
  | None => Raise KeyError
  end.

(* ------------------------------------------------------------------ *)
(** ** Cell predicates and comparisons *)

Definition isna (c : cell) : bool :=
  match c with NaN => true | _ => false end.

Definition notna (c : cell) : bool := negb (isna c).

Definition is_str (c : cell) : bool :=
  match c with Str _ => true | _ => false end.

Definition is_num (c : cell) : bool :=
  match c with Num _ => true | _ => false end.

(** [Series.dropna()] *)
Definition dropna (l : list cell) : list cell := filter notna l.

(** Equality of group keys, as the hash tables behind [value_counts] and
    [groupby] see it: numbers by value, strings by content, nulls together. *)
Definition cell_eqb (a b : cell) : bool :=
  match a, b with
  | NaN, NaN => true
  | Num p, Num q => Qeq_bool p q
  | Str s, Str t => String.eqb s t
  | _, _ => false
  end.

(** An integer that float64 represents exactly.  numpy compares a float64
    column with an integer after converting the integer to float64; for
    such an integer, as the constants of the source are, this is the
    comparison of the values. *)
Definition exact_float64 (k : Z) : bool := (Z.abs k <=? 2 ^ 53)%Z.

(** [column >= k] for an integer [k] that float64 represents exactly,
    element by element: a null compares false, a string against an integer
    raises [TypeError]. *)
Definition ge_scalar (c : cell) (k : Z) : result bool :=
  match c with
  | NaN => Ok false
  | Num q => Ok (Qle_bool (inject_Z k) q)
  | Str _ => Raise TypeError
  end.

(** [column == k] for an integer [k]: never raises. *)
Definition eq_scalar (c : cell) (k : Z) : bool :=
  match c with
  | Num q => Qeq_bool q (inject_Z k)
  | _ => false
  end.

(** The order in which pandas lists group keys ([safe_sort]): numbers in
    ascending order, then strings in ascending order, then nulls. *)
Definition key_leb (a b : cell) : bool :=
  match a, b with
  | Num p, Num q => Qle_bool p q
  | Num _, _ => true
  | Str _, Num _ => false
  | Str s, Str t => String.leb s t
  | Str _, NaN => true
  | NaN, NaN => true
  | NaN, _ => false
  end.

(** Truncation towards zero. *)
Definition Qtrunc (q : Q) : Z := Z.quot (Qnum q) (Zpos (Qden q)).

(** The range of [int64]. *)
Definition int64_min : Z := (- 2 ^ 63)%Z.
Definition int64_max : Z := (2 ^ 63 - 1)%Z.

Definition in_int64 (z : Z) : bool := (int64_min <=? z)%Z && (z <=? int64_max)%Z.

(** numpy's cast of a truncated float64 to [int64]: a value that does not
    fit comes out as the smallest [int64]. *)
Definition cast_int64 (z : Z) : Z := if in_int64 z then z else int64_min.

(** One element of [column.astype(int)] on a float64 column: the cast of a
    number; pandas refuses a column with a null ([ValueError]). *)
Definition astype_int (c : cell) : result Z :=
  match c with
  | Num q => Ok (cast_int64 (Qtrunc q))
  | _ => Raise ValueError
  end.

(* ------------------------------------------------------------------ *)
(** ** Sorting *)

(** What is known of numpy's default sort: it permutes, and it orders with
    respect to any total preorder.  Nothing is promised about the relative
    order of elements that compare equal. *)
Class Sorter : Type := {
  sort_values : forall A : Type, (A -> A -> bool) -> list A -> list A;
  sort_values_perm : forall (A : Type) (le : A -> A -> bool) (l : list A),
      Permutation l (sort_values A le l);
  sort_values_sorted : forall (A : Type) (le : A -> A -> bool) (l : list A),
      (forall a b, le a b = true \/ le b a = true) ->
      (forall a b c, le a b = true -> le b c = true -> le a c = true) ->
      Sorted (fun a b => le a b = true) (sort_values A le l)
}.

Arguments sort_values {Sorter} [A] le l.

Fixpoint insert {A : Type} (le : A -> A -> bool) (x : A) (l : list A) : list A :=
  match l with
  | [] => [x]
  | y :: t => if le x y then x :: y :: t else y :: insert le x t
  end.

(** Insertion sort from the right: stable. *)
Definition insertion_sort {A : Type} (le : A -> A -> bool) (l : list A) : list A :=
  fold_right (insert le) [] l.

(** The same sort run over the reversed input: elements that compare equal
    come out in the reverse of their input order. *)
Definition reversing_sort {A : Type} (le : A -> A -> bool) (l : list A) : list A :=
  insertion_sort le (rev l).

(* ------------------------------------------------------------------ *)
(** ** Floating point means *)

(** What is known of the float64 mean pandas computes of one or more
    numbers: the result is a float, that is a number or [NaN], never text;
    and the mean of a single number is that number (the sum is the number,
    the division is by one).  Rounding and overflow are left open: the
    result need not lie between the values, and it may be [NaN]. *)
Class FloatMean : Type := {
  fmean : list Q -> cell;
  fmean_float : forall xs : list Q, is_str (fmean xs) = false;
  fmean_single : forall x : Q, fmean [x] = Num x
}.

Definition Qsum (l : list Q) : Q := fold_right Qplus 0%Q l.

(** The mean without rounding. *)
Definition exact_fmean (xs : list Q) : cell :=
  match xs with
  | [x] => Num x
  | _ => Num (Qsum xs / inject_Z (Z.of_nat (length xs)))
  end.

(* ------------------------------------------------------------------ *)
(** ** pandas aggregation primitives *)

Section Pandas.
Context {S : Sorter} {M : FloatMean}.

(** Distinct values in order of first appearance (the keys of pandas' hash
    table). *)
Fixpoint unique (l : list cell) : list cell :=
  match l with
  | [] => []
  | x :: t => x :: filter (fun y => negb (cell_eqb x y)) (unique t)
  end.

Definition count_eq (k : cell) (l : list cell) : nat :=
  length (filter (cell_eqb k) l).

(** [Series.value_counts()] before its final sort: nulls dropped
    ([dropna=True]), one entry per distinct value in first-seen order. *)
Definition value_counts_arraylike (l : list cell) : list (cell * nat) :=
  map (fun k => (k, count_eq k (dropna l))) (unique (dropna l)).

Definition count_geb (a b : cell * nat) : bool := (snd b <=? snd a)%nat.

(** [Series.value_counts()]: sorted by descending count
    ([sort_values(ascending=False)]). *)
Definition value_counts (l : list cell) : list (cell * nat) :=
  sort_values count_geb (value_counts_arraylike l).

(** The group keys of [df.groupby(col)] ([sort=True], [dropna=True]). *)
Definition groupby_keys (l : list cell) : list cell :=
  sort_values key_leb (unique (dropna l)).

(** [df.value_counts([col]).reset_index()]: group sizes, listed by
    descending size. *)
Definition frame_value_counts (l : list cell) : list (cell * nat) :=
  sort_values count_geb
    (map (fun k => (k, count_eq k (dropna l))) (groupby_keys l)).

(** [sort_values(col)] on a column without nulls: Python cannot order a
    string against a number, so a column holding both raises [TypeError]. *)
Definition sort_values_by {A : Type} (key : A -> cell) (l : list A) : result (list A) :=
  if existsb is_str (map key l) && existsb is_num (map key l)
  then Raise TypeError
  else Ok (sort_values (fun a b => key_leb (key a) (key b)) l).

Fixpoint nums (l : list cell) : list Q :=
  match l with
  | [] => []
  | Num q :: t => q :: nums t
  | _ :: t => nums t
  end.

(** [Series.mean()] and the mean of a group ([skipna=True]): the float64
    mean of the non-null values, [NaN] when there is none; a string among
    the values raises [TypeError] (pandas 2 semantics for an object
    column). *)
Definition mean (l : list cell) : result cell :=
  if existsb is_str l then Raise TypeError
  else match nums l with
       | [] => Ok NaN
       | xs => Ok (fmean xs)
       end.

(** [df.fillna(v)] *)
Definition fill (v c : cell) : cell := if isna c then v else c.

Definition fill_row (v : cell) (r : row) : row :=
  {| date_year := fill v (date_year r);
     waterBody := fill v (waterBody r);
     country := fill v (country r);
     decimalLatitude := fill v (decimalLatitude r);
     decimalLongitude := fill v (decimalLongitude r);
     sst := fill v (sst r);
     sss := fill v (sss r) |}.

Definition fillna (v : cell) (df : DataFrame) : DataFrame := map (fill_row v) df.

(** [df.loc[labels]] on a frame with a [RangeIndex]: each label selects the
    row at that position (a float label with a whole value matches the
    integer position); a label that is not a position of the frame raises
    [KeyError]. *)
Definition loc_label (df : DataFrame) (label : cell) : result row :=
  match label with
  | Num q =>
      if Qeq_bool q (inject_Z (Qtrunc q)) && (0 <=? Qtrunc q)%Z
      then match nth_error df (Z.to_nat (Qtrunc q)) with
           | Some r => Ok r
           | None => Raise KeyError
           end
      else Raise KeyError
  | _ => Raise KeyError
  end.

Definition loc (df : DataFrame) (labels : list cell) : result DataFrame :=
  mapM (loc_label df) labels.

(* ------------------------------------------------------------------ *)
(** ** The functions of [sea_turtles.py] *)

(** [load_data] (lines 15-21), from the frame [pd.read_csv] returns.  The
    values of [date_year] that are not null are used as row labels. *)
Definition load_data (csv : DataFrame) : result DataFrame :=
  turtles_data <- loc csv (dropna (map date_year csv)) ;;
  Ok (fillna (Str "NA") turtles_data).

(** [df_yearly] of [turtle_population_plot] (lines 36-38): the view the
    specification calls [yearly_counts]. *)
Definition yearly_counts (df : DataFrame) : result (list (cell * nat)) :=
  df_yearly <- sort_values_by fst (frame_value_counts (map date_year df)) ;;
  filterM (fun p => b <- ge_scalar (fst p) 1990 ;; Ok ((1 <? snd p)%nat && b)) df_yearly.

(** The parts of the figure of [turtle_population_plot] that depend on the
    data: the trace and the heights of the two annotations. *)
Record PopulationFigure : Type := {
  trace_x : list cell;
  trace_y : list nat;
  annotation_2009_y : option nat;
  annotation_2019_y : nat
}.

(** [Series.max()]: [None] stands for the [nan] of an empty series. *)
Definition series_max (l : list nat) : option nat :=
  match l with
  | [] => None
  | x :: t => Some (fold_right Nat.max x t)
  end.

(** [turtle_population_plot] (lines 23-103).  [.values[0]] on line 73 raises
    [IndexError] when [df_yearly] has no row for 2019. *)
Definition turtle_population_plot (df : DataFrame) : result PopulationFigure :=
  df_yearly <- yearly_counts df ;;
  y2019 <- match filter (fun p => eq_scalar (fst p) 2019) df_yearly with
           | [] => Raise IndexError
           | p :: _ => Ok (snd p)
           end ;;
  Ok {| trace_x := map fst df_yearly;
        trace_y := map snd df_yearly;
        annotation_2009_y := series_max (map snd df_yearly);
        annotation_2019_y := y2019 |}.

(** [df_yearly] of [scatter_plot] (line 119): the view the specification
    calls [yearly_means], one entry (year, mean sst, mean sss) per group. *)
Definition yearly_means (df : DataFrame) : result (list (cell * cell * cell)) :=
  mapM (fun k =>
          let group := filter (fun r => cell_eqb k (date_year r)) df in
          m_sst <- mean (map sst group) ;;
          m_sss <- mean (map sss group) ;;
          Ok (k, m_sst, m_sss))
       (groupby_keys (map date_year df)).

Record ScatterFigure : Type := {
  sst_x : list cell; sst_y : list cell;
  sss_x : list cell; sss_y : list cell
}.

(** [scatter_plot] (lines 106-173) *)
Definition scatter_plot (df : DataFrame) : result ScatterFigure :=
  df_yearly <- yearly_means df ;;
  Ok {| sst_x := map (fun e => fst (fst e)) df_yearly;
        sst_y := map (fun e => snd (fst e)) df_yearly;
        sss_x := map (fun e => fst (fst e)) df_yearly;
        sss_y := map snd df_yearly |}.

(** [field_counts] of [pie_plot] (lines 190-196): the view the specification
    calls [category_counts]; the year threshold 2000 is fixed in the code. *)
Definition category_counts (df : DataFrame) (field : string) : result (list (cell * nat)) :=
  filtered_data <- filterM (fun r => ge_scalar (date_year r) 2000) df ;;
  col <- getitem filtered_data field ;;
  Ok (filter (fun p => (1 <? snd p)%nat) (value_counts col)).

Record PieFigure : Type := { labels : list cell; values : list nat }.

(** [pie_plot] (lines 176-224) *)
Definition pie_plot (df : DataFrame) (field : string) : result PieFigure :=
  field_counts <- category_counts df field ;;
  Ok {| labels := map fst field_counts; values := map snd field_counts |}.

(** A row of the frame [filter_turtle_data] returns. *)
Record geo_row : Type := mkGeo {
  geo_year : Z;
  geo_latitude : cell;
  geo_longitude : cell
}.

(** [filter_turtle_data] (lines 265-279): the view the specification calls
    [geo_filter]. *)
Definition filter_turtle_data (turtles_data : DataFrame) (year : Z) : result (list geo_row) :=
  filtered_data <- filterM (fun r => ge_scalar (date_year r) year) turtles_data ;;
  mapM (fun r => y <- astype_int (date_year r) ;;
                 Ok (mkGeo y (decimalLatitude r) (decimalLongitude r)))
       filtered_data.

(** [heat_data] of [map_heatmap] (lines 239-244): the coordinate pairs of the
    rows in which neither coordinate is null. *)
Definition heat_data (turtles_data : list geo_row) : list (cell * cell) :=
  map (fun g => (geo_latitude g, geo_longitude g))
      (filter (fun g => notna (geo_latitude g) && notna (geo_longitude g)) turtles_data).

(** What [map_heatmap] hands to folium: the centre of the map and the
    points of the heat layer. *)
Record Heatmap : Type := {
  location : cell * cell;
  heat : list (cell * cell)
}.

(** The check [folium.Map] makes of its [location]: a coordinate that is
    [nan] raises [ValueError]. *)
Definition validate_location (lat lon : cell) : result (cell * cell) :=
  if isna lat || isna lon then Raise ValueError else Ok (lat, lon).

(** [map_heatmap] (lines 227-261); of the folium objects only the check of
    the centre is modelled. *)
Definition map_heatmap (turtles_data : list geo_row) : result Heatmap :=
  let points := heat_data turtles_data in
  center_lat <- mean (map geo_latitude turtles_data) ;;
  center_lon <- mean (map geo_longitude turtles_data) ;;
  centre <- validate_location center_lat center_lon ;;
  Ok {| location := centre; heat := points |}.

End Pandas.

(* ------------------------------------------------------------------ *)
(** ** The script (lines 281-331) *)

Section Script.

(** Python's [int] on text: the integer a string denotes, when it denotes
    one.  [astype(int)] applies it to the strings of an object column. *)
Variable int_of_text : string -> option Z.

(** One element of [column.astype(int)] on an object column (a column
    that holds text): Python's [int] is applied to the element and the
    result stored as [int64].  A null and a text that denotes no integer
    raise [ValueError]; an integer that does not fit in 64 bits raises
    [OverflowError]. *)
Definition astype_int_element (c : cell) : result Z :=
  match c with
  | NaN => Raise ValueError
  | Num q => if in_int64 (Qtrunc q) then Ok (Qtrunc q) else Raise OverflowError
  | Str s => match int_of_text s with
             | Some z => if in_int64 z then Ok z else Raise OverflowError
             | None => Raise ValueError
             end
  end.

(** An element of which the integer, if it has one, fits in [int64]. *)
Definition element_fits (c : cell) : bool :=
  match c with
  | NaN => true
  | Num q => in_int64 (Qtrunc q)
  | Str s => match int_of_text s with
             | Some z => in_int64 z
             | None => true
             end
  end.

(** [df["date_year"].astype(int)]: element by element on an object column,
    numpy's cast on a float64 column. *)
Definition years_as_int (df : DataFrame) : result (list Z) :=
  if existsb is_str (map date_year df)
  then mapM (fun r => astype_int_element (date_year r)) df
  else mapM (fun r => astype_int (date_year r)) df.

(** [filtered_years] (line 284): the rows whose year, as an integer, is at
    least 1992. *)
Definition filtered_years (turtles_data : DataFrame) : result DataFrame :=
  ys <- years_as_int turtles_data ;;
  Ok (map fst (filter (fun p => (1992 <=? snd p)%Z) (combine turtles_data ys))).

(** [Series.min()] and [Series.max()] of an integer column; [None] stands
    for the [nan] of an empty column. *)
Definition series_min (l : list Z) : option Z :=
  match l with
  | [] => None
  | x :: t => Some (fold_right Z.min x t)
  end.

Definition series_max_int (l : list Z) : option Z :=
  match l with
  | [] => None
  | x :: t => Some (fold_right Z.max x t)
  end.

(** [first_date] (line 285) and [last_date] (line 286): the ends of the
    slider. *)
Definition first_date (turtles_data : DataFrame) : result (option Z) :=
  fy <- filtered_years turtles_data ;;
  ys <- years_as_int fy ;;
  Ok (series_min ys).

Definition last_date (turtles_data : DataFrame) : result (option Z) :=
  fy <- filtered_years turtles_data ;;
  ys <- years_as_int fy ;;
  Ok (series_max_int ys).

End Script.

(** The fourth tab (lines 320-331) for the position [selected_date] of the
    slider: the rows from that year on, handed to [map_heatmap]. *)
Definition tab4 {M : FloatMean} (turtles_data : DataFrame) (selected_date : Z)
  : result Heatmap :=
  filtered_data <- filter_turtle_data turtles_data selected_date ;;
  map_heatmap filtered_data.

(* ------------------------------------------------------------------ *)
(** ** Auxiliary definitions used in the statements *)

(** [year >= k] as a test on a cell: false on a null and on a string. *)
Definition year_geb (k : Z) (c : cell) : bool :=
  match c with
  | Num q => Qle_bool (inject_Z k) q
  | _ => false
  end.

(** Some cell of the column is a string. *)
Definition has_str (l : list cell) : bool := existsb is_str l.

(** A frame as [pd.read_csv] types it for this data set: the year column
    and the two measurement columns hold numbers and nulls, no string. *)
Definition well_formed (D : DataFrame) : Prop :=
  has_str (map date_year D) = false /\
  has_str (map sst D) = false /\
  has_str (map sss D) = false.

(** The projection [filter_turtle_data] applies to a selected row: year
    cast to [int64], latitude, longitude. *)
Definition geo_of (r : row) : geo_row :=
  mkGeo (match date_year r with Num q => cast_int64 (Qtrunc q) | _ => 0%Z end)
        (decimalLatitude r) (decimalLongitude r).

(** A year that fits in [int64] once truncated, when it is a number. *)
Definition year_fits (c : cell) : bool :=
  match c with
  | Num q => in_int64 (Qtrunc q)
  | _ => true
  end.

(** The rows of the group of key [k]. *)
Definition group (D : DataFrame) (k : cell) : DataFrame :=
  filter (fun r => cell_eqb k (date_year r)) D.

(** One entry of [yearly_means]. *)
Definition group_means {M : FloatMean} (D : DataFrame) (k : cell)
  : result (cell * cell * cell) :=
  m_sst <- mean (map sst (group D k)) ;;
  m_sss <- mean (map sss (group D k)) ;;
  Ok (k, m_sst, m_sss).

(** Equal as keys. *)
Definition keq (a b : cell) : Prop := cell_eqb a b = true.

(** Strictly before, among keys. *)
Definition key_lt (a b : cell) : Prop :=
  key_leb a b = true /\ cell_eqb a b = false.

(** The order of [sort_values("date_year")] on the rows of [df_yearly]. *)
Definition by_year (a b : cell * nat) : bool := key_leb (fst a) (fst b).

(** The row filter [query("count > 1 and date_year >= 1990")] once the
    comparison has not raised. *)
Definition yearly_query (p : cell * nat) : bool :=
  (1 <? snd p)%nat && year_geb 1990 (fst p).

(** The row filter [query("count > 1")]. *)
Definition more_than_one (p : cell * nat) : bool := (1 <? snd p)%nat.

(** The records [category_counts] counts for the category [c]. *)
Definition counted (D : DataFrame) (proj : row -> cell) (c : cell) : DataFrame :=
  filter (fun r => year_geb 2000 (date_year r) && cell_eqb c (proj r)) D.

(** The records a pie can show: year of 2000 or later and a category that
    is not null. *)
Definition recorded (D : DataFrame) (proj : row -> cell) : DataFrame :=
  filter (fun r => year_geb 2000 (date_year r) && notna (proj r)) D.

(** The categories that exactly one of these records carries. *)
Definition seen_once (D : DataFrame) (proj : row -> cell) : list cell :=
  filter (fun k => (length (counted D proj k) =? 1)%nat)
         (unique (dropna (map proj (filter (fun r => year_geb 2000 (date_year r)) D)))).

(** The group sizes of a column, in first-seen order of the keys. *)
Definition group_sizes (ys : list cell) : list (cell * nat) :=
  map (fun k => (k, count_eq k (dropna ys))) (unique (dropna ys)).

(** The records counted under the marker "NA": year of 2000 or later and a
    category that is null or already reads "NA". *)
Definition unknown_category (proj : row -> cell) (r : row) : bool :=
  year_geb 2000 (date_year r) && (isna (proj r) || cell_eqb (Str "NA") (proj r)).

(** The records that carry a year. *)
Definition dated (D : DataFrame) : DataFrame :=
  filter (fun r => notna (date_year r)) D.

(** The records of the year [y]. *)
Definition sightings_of (y : Z) (D : DataFrame) : DataFrame :=
  filter (fun r => eq_scalar (date_year r) y) D.

(** No cell of the row is null. *)
Definition no_null (r : row) : bool :=
  notna (date_year r) && notna (waterBody r) && notna (country r)
  && notna (decimalLatitude r) && notna (decimalLongitude r)
  && notna (sst r) && notna (sss r).

(** The pair of coordinates of a row. *)
Definition coordinates (g : geo_row) : cell * cell :=
  (geo_latitude g, geo_longitude g).

(* ------------------------------------------------------------------ *)
(** ** The views as the specification words them *)

(** [geo_filter]: the records with a year of at least [y] and both
    coordinates present, projected to (year as an integer, latitude,
    longitude). *)
Definition geo_filter_spec (D : DataFrame) (y : Z) : list geo_row :=
  map (fun r => mkGeo (match date_year r with Num q => Qtrunc q | _ => 0%Z end)
                      (decimalLatitude r) (decimalLongitude r))
      (filter (fun r => year_geb y (date_year r)
                        && notna (decimalLatitude r) && notna (decimalLongitude r)) D).

(** [category_counts]: records from [min_year] on, grouped by the value of
    the field (a null value is kept, as the marker of a value that is not
    available), counts of at most one removed, descending count and
    first-encountered order among equal counts. *)
Definition category_counts_spec (D : DataFrame) (field : row -> cell) (min_year : Z)
  : list (cell * nat) :=
  let col := map field (filter (fun r => year_geb min_year (date_year r)) D) in
  insertion_sort count_geb
    (filter more_than_one (map (fun k => (k, count_eq k col)) (unique col))).

(* ------------------------------------------------------------------ *)
(** ** Sample frames *)

Definition year (y : Z) : cell := Num (inject_Z y).

(** A sighting of which only the year and the water body are recorded. *)
Definition sighting (y : cell) (water : cell) : row :=
  mkRow y water NaN NaN NaN NaN NaN.

(** The years of the first example of the specification (section 8). *)
Definition six_sightings : DataFrame :=
  map (fun y => sighting (year y) (Str "Pacific"))
      [1990; 1990; 1991; 1991; 1991; 2005]%Z.

(** The second example of the specification (section 8). *)
Definition three_waters : DataFrame :=
  [sighting (year 2001) (Str "Pacific");
   sighting (year 2003) (Str "Atlantic");
   sighting (year 2004) (Str "Pacific")].

(** Twenty water bodies. *)
Definition water_names : list string :=
  ["Pacific"; "Atlantic"; "Indian"; "Caribbean"; "Coral"; "Red"; "Arabian";
   "Java"; "Banda"; "Timor"; "Arafura"; "Celebes"; "Sulu"; "Andaman";
   "Tasman"; "Solomon"; "Bismarck"; "Flores"; "Molucca"; "Savu"]%string.

(** Every second one of them, starting with the second. *)
Fixpoint every_second {A : Type} (l : list A) : list A :=
  match l with
  | _ :: x :: t => x :: every_second t
  | _ => []
  end.

(** Sightings in twenty water bodies: one in each in 2001, one in each in
    2002, and in 2003 one more in every second of them.  The counts are 2
    and 3 in turn, in the order in which the water bodies are first seen. *)
Definition twenty_waters : DataFrame :=
  map (fun w => sighting (year 2001) (Str w)) water_names
  ++ map (fun w => sighting (year 2002) (Str w)) water_names
  ++ map (fun w => sighting (year 2003) (Str w)) (every_second water_names).

(** The six sightings followed by three of 2019. *)
Definition sightings_to_2019 : DataFrame :=
  six_sightings
  ++ map (fun y => sighting (year y) (Str "Atlantic")) [2019; 2019; 2019]%Z.

(** One sighting of 2005 without coordinates, one of 2010 with them. *)
Definition two_positions : DataFrame :=
  [sighting (year 2005) (Str "Pacific");
   mkRow (year 2010) (Str "Pacific") (Str "Fiji") (Num (-17)) (Num 178) NaN NaN].

(** A year in which no temperature was measured. *)
Definition no_temperature : DataFrame :=
  [mkRow (year 2000) NaN NaN NaN NaN NaN (Num 35);
   mkRow (year 2000) NaN NaN NaN NaN NaN (Num 36)].

(** A year column that holds a string, as [fillna("NA")] leaves it. *)
Definition filled_year : DataFrame :=
  [sighting (Str "NA") (Str "Pacific")].

(** A complete record. *)
Definition measured (y : cell) (temperature salinity : Q) : row :=
  mkRow y (Str "Pacific") (Str "Fiji") (Num (-17)) (Num 178)
        (Num temperature) (Num salinity).

(** A file of 2006 lines: the first is dated 2005, the others carry no
    year. *)
Definition csv_unknown_years : DataFrame :=
  measured (year 2005) 27 35 :: repeat (measured NaN 25 34) 2005.

(** A file of two lines of 2005 without water body. *)
Definition csv_two_unknown_waters : DataFrame :=
  [sighting (year 2005) NaN; sighting (year 2005) NaN].

(** A file of 2006 lines: lines 0, 1 and 2005 are dated (2005, 2004, 2005),
    line 2005 has no water body, the lines between carry no year. *)
Definition csv_unknown_waters : DataFrame :=
  sighting (year 2005) (Str "Pacific") :: sighting (year 2004) (Str "Pacific")
  :: repeat (sighting NaN (Str "Atlantic")) 2003 ++ [sighting (year 2005) NaN].

(** A file of 2006 lines: lines 0 and 2005 are dated 2005, line 2005 has no
    coordinates, the lines between carry no year. *)
Definition csv_unknown_position : DataFrame :=
  measured (year 2005) 27 35
  :: repeat (measured NaN 25 34) 2004
  ++ [mkRow (year 2005) (Str "Pacific") (Str "Fiji") NaN NaN (Num 26) (Num 35)].




(** What [load_data] makes of [csv_unknown_waters]. *)
Definition loaded_unknown_waters : DataFrame :=
  [mkRow (year 2005) (Str "NA") (Str "NA") (Str "NA") (Str "NA") (Str "NA") (Str "NA");
   mkRow (Str "NA") (Str "Atlantic") (Str "NA") (Str "NA") (Str "NA") (Str "NA") (Str "NA");
   mkRow (year 2005) (Str "NA") (Str "NA") (Str "NA") (Str "NA") (Str "NA") (Str "NA")].

(* ================================================================== *)
(** * Properties *)

(* ------------------------------------------------------------------ *)
(** ** Two sorts that meet the contract *)

Lemma insert_perm {A : Type} (le : A -> A -> bool) (x : A) (l : list A) :
  Permutation (x :: l) (insert le x l).
Proof.
  induction l as [|y t IH]; simpl.
  - apply Permutation_refl.
  - destruct (le x y).
    + apply Permutation_refl.
    + eapply perm_trans; [apply perm_swap|]. now apply perm_skip.
Qed.

Lemma insertion_sort_perm {A : Type} (le : A -> A -> bool) (l : list A) :
  Permutation l (insertion_sort le l).
Proof.
  induction l as [|x t IH]; simpl.
  - constructor.
  - eapply perm_trans; [apply perm_skip, IH|]. apply insert_perm.
Qed.

Lemma insert_sorted {A : Type} (le : A -> A -> bool) (x : A) (l : list A) :
  (forall a b, le a b = true \/ le b a = true) ->
  Sorted (fun a b => le a b = true) l ->
  Sorted (fun a b => le a b = true) (insert le x l).
Proof.
  intros Htot Hs. induction Hs as [|y t Hs IH Hhd]; simpl.
  - repeat constructor.
  - destruct (le x y) eqn:E.
    + constructor; [constructor; assumption|]. now constructor.
    + constructor; [assumption|].
      destruct t as [|z t']; simpl.
      * constructor. destruct (Htot x y) as [H|H]; congruence.
      * inversion Hhd; subst. destruct (le x z) eqn:Ez.
        -- constructor. destruct (Htot x y) as [H|H]; congruence.
        -- now constructor.
Qed.

Lemma insertion_sort_sorted {A : Type} (le : A -> A -> bool) (l : list A) :
  (forall a b, le a b = true \/ le b a = true) ->
  Sorted (fun a b => le a b = true) (insertion_sort le l).
Proof.
  intros Htot. induction l as [|x t IH]; simpl.
  - constructor.
  - now apply insert_sorted.
Qed.

Definition stable_sorter : Sorter := {|
  sort_values := @insertion_sort;
  sort_values_perm := @insertion_sort_perm;
  sort_values_sorted := fun A le l Htot _ => insertion_sort_sorted le l Htot
|}.

Lemma reversing_sort_perm {A : Type} (le : A -> A -> bool) (l : list A) :
  Permutation l (reversing_sort le l).
Proof.
  unfold reversing_sort.
  eapply perm_trans; [apply Permutation_rev|]. apply insertion_sort_perm.
Qed.

Definition reversing_sorter : Sorter := {|
  sort_values := @reversing_sort;
  sort_values_perm := @reversing_sort_perm;
  sort_values_sorted := fun A le l Htot _ => insertion_sort_sorted le (rev l) Htot
|}.

(* ------------------------------------------------------------------ *)
(** ** A mean that meets the contract *)

Lemma exact_fmean_float (xs : list Q) : is_str (exact_fmean xs) = false.
Proof. destruct xs as [|x [|y t]]; reflexivity. Qed.

Definition exact_mean : FloatMean := {|
  fmean := exact_fmean;
  fmean_float := exact_fmean_float;
  fmean_single := fun x => eq_refl
|}.

(* ------------------------------------------------------------------ *)
(** ** The cast to [int64] *)

Lemma cast_int64_fits (z : Z) : in_int64 z = true -> cast_int64 z = z.
Proof. unfold cast_int64. now intros ->. Qed.

Lemma cast_int64_range (z : Z) : in_int64 (cast_int64 z) = true.
Proof.
  unfold cast_int64. destruct (in_int64 z) eqn:E; [assumption | reflexivity].
Qed.

(** A cast that is not the smallest [int64] is the value itself. *)
Lemma cast_int64_above (z : Z) :
  (int64_min < cast_int64 z)%Z -> cast_int64 z = z.
Proof.
  unfold cast_int64. destruct (in_int64 z); [reflexivity | lia].
Qed.

(* ------------------------------------------------------------------ *)
(** ** The error monad *)

Lemma filterM_cons {A : Type} (p : A -> result bool) (x : A) (t : list A) :
  filterM p (x :: t) =
  (b <- p x ;; t' <- filterM p t ;; Ok (if b then x :: t' else t')).
Proof.
  unfold filterM; simpl.
  destruct (p x) as [b|e]; simpl; [|reflexivity].
  destruct (mapM p t) as [bs|e]; simpl; [|reflexivity].
  now destruct b.
Qed.

Lemma mapM_map {A B : Type} (f : A -> result B) (g : A -> B) (l : list A) :
  (forall x, In x l -> f x = Ok (g x)) -> mapM f l = Ok (map g l).
Proof.
  induction l as [|x t IH]; intros H; simpl; [reflexivity|].
  rewrite (H x (or_introl eq_refl)); simpl.
  rewrite IH; [reflexivity|]. intros y Hy. apply H. now right.
Qed.

Lemma mapM_Forall2 {A B : Type} (f : A -> result B) (l : list A) (out : list B) :
  mapM f l = Ok out -> Forall2 (fun x y => f x = Ok y) l out.
Proof.
  revert out. induction l as [|x t IH]; simpl; intros out H.
  - injection H as <-. constructor.
  - destruct (f x) as [y|e] eqn:E; simpl in H; [|discriminate].
    destruct (mapM f t) as [ys|e] eqn:Et; simpl in H; [|discriminate].
    injection H as <-. constructor; auto.
Qed.

Lemma mapM_Raise {A B : Type} (f : A -> result B) (l : list A) (e : exn) :
  mapM f l = Raise e -> exists x, In x l /\ f x = Raise e.
Proof.
  induction l as [|x t IH]; simpl; intros H; [discriminate|].
  destruct (f x) as [y|e'] eqn:E; simpl in H.
  - destruct (mapM f t) as [ys|e''] eqn:Et; simpl in H; [discriminate|].
    injection H as ->. destruct (IH eq_refl) as (z & Hz & Hf).
    exists z. split; [now right | assumption].
  - injection H as ->. exists x. split; [now left | assumption].
Qed.

(** The mask [column >= k] over a whole column: one string makes the
    comparison raise, otherwise the rows at or above [k] are selected. *)
Lemma filterM_ge_scalar {A : Type} (key : A -> cell) (k : Z) (l : list A) :
  filterM (fun r => ge_scalar (key r) k) l =
  if has_str (map key l) then Raise TypeError
  else Ok (filter (fun r => year_geb k (key r)) l).
Proof.
  induction l as [|x t IH]; [reflexivity|].
  rewrite filterM_cons, IH. unfold has_str; simpl.
  destruct (key x) as [|q|s]; simpl; try reflexivity;
    destruct (existsb is_str (map key t)); reflexivity.
Qed.

(* ------------------------------------------------------------------ *)
(** ** Keys: equality and order *)

Lemma cell_eqb_refl (a : cell) : cell_eqb a a = true.
Proof.
  destruct a; simpl; [reflexivity | apply Qeq_bool_refl | apply String.eqb_refl].
Qed.

Lemma cell_eqb_sym (a b : cell) : cell_eqb a b = cell_eqb b a.
Proof.
  destruct a, b; simpl; try reflexivity;
    [apply Qeq_bool_comm | apply String.eqb_sym].
Qed.

Lemma cell_eqb_trans (a b c : cell) :
  cell_eqb a b = true -> cell_eqb b c = true -> cell_eqb a c = true.
Proof.
  destruct a, b, c; simpl; try discriminate; try reflexivity.
  - apply Qeq_bool_trans.
  - rewrite !String.eqb_eq. congruence.
Qed.

#[local] Instance keq_equiv : Equivalence keq.
Proof.
  split.
  - intros a. apply cell_eqb_refl.
  - intros a b H. unfold keq. now rewrite cell_eqb_sym.
  - intros a b c. apply cell_eqb_trans.
Qed.

Lemma ascii_compare_eq (a b : ascii) : Ascii.compare a b = Eq -> a = b.
Proof.
  unfold Ascii.compare. rewrite N.compare_eq_iff. intros H.
  rewrite <- (ascii_N_embedding a), <- (ascii_N_embedding b). now f_equal.
Qed.

Lemma string_leb_trans (s t u : string) :
  String.leb s t = true -> String.leb t u = true -> String.leb s u = true.
Proof.
  unfold String.leb. revert t u.
  induction s as [|a s IH]; intros [|b t] [|c u]; simpl; try congruence.
  destruct (Ascii.compare a b) eqn:Eab; try congruence;
    destruct (Ascii.compare b c) eqn:Ebc; try congruence; intros H1 H2.
  - apply ascii_compare_eq in Eab, Ebc. subst.
    assert (Ascii.compare c c = Eq) as ->
        by (unfold Ascii.compare; apply N.compare_refl).
    eapply IH; eassumption.
  - apply ascii_compare_eq in Eab. subst. now rewrite Ebc.
  - apply ascii_compare_eq in Ebc. subst. now rewrite Eab.
  - assert (Ascii.compare a c = Lt) as ->; [|reflexivity].
    unfold Ascii.compare in *. rewrite N.compare_lt_iff in *.
    eapply N.lt_trans; eassumption.
Qed.

Lemma key_leb_total (a b : cell) : key_leb a b = true \/ key_leb b a = true.
Proof.
  destruct a as [|p|s], b as [|q|t]; simpl; auto.
  - rewrite !Qle_bool_iff. destruct (Qlt_le_dec p q) as [H|H]; [left|right]; lra.
  - apply String.leb_total.
Qed.

Lemma key_leb_trans (a b c : cell) :
  key_leb a b = true -> key_leb b c = true -> key_leb a c = true.
Proof.
  destruct a as [|p|s], b as [|q|t], c as [|r|u]; simpl;
    try discriminate; try reflexivity.
  - rewrite !Qle_bool_iff. lra.
  - apply string_leb_trans.
Qed.

Lemma key_leb_antisym (a b : cell) :
  key_leb a b = true -> key_leb b a = true -> cell_eqb a b = true.
Proof.
  destruct a as [|p|s], b as [|q|t]; simpl; try discriminate; try reflexivity.
  - rewrite !Qle_bool_iff, Qeq_bool_iff. lra.
  - intros H1 H2. rewrite String.eqb_eq. now apply String.leb_antisym.
Qed.

(* ------------------------------------------------------------------ *)
(** ** [filter_turtle_data] (geo_filter) *)

Lemma year_geb_Num (k : Z) (c : cell) :
  year_geb k c = true -> exists q, c = Num q /\ (inject_Z k <= q)%Q.
Proof.
  destruct c as [|q|s]; simpl; try discriminate.
  intros H. exists q. split; [reflexivity | now apply Qle_bool_iff].
Qed.

Lemma year_geb_mono (k1 k2 : Z) (c : cell) :
  (k1 <= k2)%Z -> year_geb k2 c = true -> year_geb k1 c = true.
Proof.
  intros Hk. destruct c as [|q|s]; simpl; try discriminate.
  rewrite !Qle_bool_iff. intros H.
  apply Qle_trans with (inject_Z k2); [|assumption].
  now rewrite <- Zle_Qle.
Qed.

Lemma filter_length_le {A : Type} (f g : A -> bool) (l : list A) :
  (forall x, f x = true -> g x = true) ->
  (length (filter f l) <= length (filter g l))%nat.
Proof.
  intros H. induction l as [|x t IH]; simpl; [lia|].
  destruct (f x) eqn:E.
  - rewrite (H x E). simpl. lia.
  - destruct (g x); simpl; lia.
Qed.

(** What [filter_turtle_data] computes, on every frame and threshold: a
    string in the year column makes the comparison raise; otherwise the rows
    whose year is at least the threshold, in the order of the frame, each
    projected by [geo_of].  Coordinates take no part in the selection. *)
Lemma filter_turtle_data_eq (D : DataFrame) (y : Z) :
  filter_turtle_data D y =
  if has_str (map date_year D) then Raise TypeError
  else Ok (map geo_of (filter (fun r => year_geb y (date_year r)) D)).
Proof.
  unfold filter_turtle_data. rewrite filterM_ge_scalar.
  destruct (has_str (map date_year D)); simpl; [reflexivity|].
  apply mapM_map. intros r Hr. apply filter_In in Hr as [_ Hr].
  unfold geo_of. destruct (date_year r); simpl in *; try discriminate.
  reflexivity.
Qed.

(* ------------------------------------------------------------------ *)
(** ** Group keys *)

Lemma has_str_iff (l : list cell) :
  has_str l = true <-> exists s, In (Str s) l.
Proof.
  unfold has_str. rewrite existsb_exists. split.
  - intros (c & Hc & Hs). destruct c; try discriminate. now exists s.
  - intros (s & Hs). now exists (Str s).
Qed.

Lemma has_str_perm (l l' : list cell) :
  Permutation l l' -> has_str l = has_str l'.
Proof.
  intros HP. apply eq_true_iff_eq. rewrite !has_str_iff.
  split; intros (s & Hs); exists s.
  - eapply Permutation_in; eassumption.
  - eapply Permutation_in; [apply Permutation_sym|]; eassumption.
Qed.

Lemma dropna_In (x : cell) (l : list cell) :
  In x (dropna l) <-> In x l /\ notna x = true.
Proof. unfold dropna. apply filter_In. Qed.

Lemma unique_In (x : cell) (l : list cell) : In x (unique l) -> In x l.
Proof.
  induction l as [|a t IH]; simpl; [tauto|].
  intros [H|H]; [now left|]. apply filter_In in H as [H _]. right. now apply IH.
Qed.

Lemma unique_complete (x : cell) (l : list cell) :
  In x l -> exists k, In k (unique l) /\ cell_eqb k x = true.
Proof.
  induction l as [|a t IH]; simpl; [tauto|].
  intros [->|H].
  - exists x. split; [now left | apply cell_eqb_refl].
  - destruct (IH H) as (k & Hk & Hkx).
    destruct (cell_eqb a k) eqn:E.
    + exists a. split; [now left|]. eapply cell_eqb_trans; eassumption.
    + exists k. split; [|assumption]. right. apply filter_In. now rewrite E.
Qed.

Lemma InA_keq_filter (f : cell -> bool) (x : cell) (l : list cell) :
  InA keq x (filter f l) -> InA keq x l.
Proof.
  rewrite !InA_alt. intros (y & Hxy & Hy).
  apply filter_In in Hy as [Hy _]. now exists y.
Qed.

Lemma NoDupA_keq_filter (f : cell -> bool) (l : list cell) :
  NoDupA keq l -> NoDupA keq (filter f l).
Proof.
  induction 1 as [|a t Hin Hnd IH]; simpl; [constructor|].
  destruct (f a); [|assumption].
  constructor; [|assumption]. intros H. apply Hin. eapply InA_keq_filter, H.
Qed.

Lemma unique_NoDupA (l : list cell) : NoDupA keq (unique l).
Proof.
  induction l as [|a t IH]; simpl; constructor.
  - rewrite InA_alt. intros (y & Hay & Hy).
    apply filter_In in Hy as [_ Hy]. unfold keq in Hay. now rewrite Hay in Hy.
  - now apply NoDupA_keq_filter.
Qed.

Lemma NoDupA_keq_perm (l l' : list cell) :
  Permutation l l' -> NoDupA keq l -> NoDupA keq l'.
Proof.
  intros HP Hnd.
  refine (PermutationA_preserves_NoDupA keq_equiv _ Hnd).
  apply Permutation_PermutationA; [typeclasses eauto | exact HP].
Qed.

Lemma cell_eqb_Str (k : cell) (s : string) :
  cell_eqb k (Str s) = true -> k = Str s.
Proof.
  destruct k; simpl; try discriminate. rewrite String.eqb_eq. now intros ->.
Qed.

Lemma cell_eqb_notna (k x : cell) :
  notna k = true -> cell_eqb k x = true -> notna x = true.
Proof. destruct k, x; simpl; intros; try reflexivity; discriminate. Qed.

(** Counting the occurrences of a key that is not null: nulls do not count. *)
Lemma count_eq_dropna (k : cell) (l : list cell) :
  notna k = true -> count_eq k (dropna l) = count_eq k l.
Proof.
  intros Hk. unfold count_eq, dropna.
  induction l as [|x t IH]; simpl; [reflexivity|].
  destruct (notna x) eqn:Ex; simpl.
  - destruct (cell_eqb k x); simpl; congruence.
  - destruct (cell_eqb k x) eqn:E; [|assumption].
    rewrite (cell_eqb_notna _ _ Hk E) in Ex. discriminate.
Qed.

Lemma count_eq_map_filter {A : Type} (k : cell) (proj : A -> cell)
      (f : A -> bool) (l : list A) :
  count_eq k (map proj (filter f l)) =
  length (filter (fun r => f r && cell_eqb k (proj r)) l).
Proof.
  unfold count_eq. induction l as [|x t IH]; simpl; [reflexivity|].
  destruct (f x); simpl; [|assumption].
  destruct (cell_eqb k (proj x)); simpl; congruence.
Qed.

(* ------------------------------------------------------------------ *)
(** ** Ordered lists *)

Lemma StronglySorted_filter {A : Type} (R : A -> A -> Prop) (f : A -> bool)
      (l : list A) :
  StronglySorted R l -> StronglySorted R (filter f l).
Proof.
  induction 1 as [|a t Hs IH Hall]; simpl; [constructor|].
  destruct (f a); [|assumption].
  constructor; [assumption|].
  rewrite Forall_forall in *. intros x Hx. apply Hall.
  now apply filter_In in Hx as [Hx _].
Qed.

(** A list ordered by its keys in which no key occurs twice is strictly
    ordered. *)
Lemma sorted_distinct_strict {A : Type} (key : A -> cell) (l : list A) :
  StronglySorted (fun a b => key_leb (key a) (key b) = true) l ->
  NoDupA keq (map key l) ->
  StronglySorted (fun a b => key_lt (key a) (key b)) l.
Proof.
  induction 1 as [|a t Hs IH Hall]; simpl; intros Hnd; [constructor|].
  inversion Hnd as [|? ? Hin Hnd']; subst.
  constructor; [now apply IH|].
  rewrite Forall_forall in *. intros x Hx. split; [now apply Hall|].
  destruct (cell_eqb (key a) (key x)) eqn:E; [|reflexivity].
  exfalso. apply Hin. rewrite InA_alt. exists (key x).
  split; [exact E | now apply in_map].
Qed.

Lemma sort_values_strongly (S : Sorter) {A : Type} (key : A -> cell) (l : list A) :
  StronglySorted (fun a b => key_leb (key a) (key b) = true)
                 (sort_values (fun a b => key_leb (key a) (key b)) l).
Proof.
  apply Sorted_StronglySorted.
  - intros a b c. apply key_leb_trans.
  - apply sort_values_sorted.
    + intros a b. apply key_leb_total.
    + intros a b c. apply key_leb_trans.
Qed.

Lemma count_geb_total (a b : cell * nat) :
  count_geb a b = true \/ count_geb b a = true.
Proof. unfold count_geb. rewrite !Nat.leb_le. lia. Qed.

Lemma count_geb_trans (a b c : cell * nat) :
  count_geb a b = true -> count_geb b c = true -> count_geb a c = true.
Proof. unfold count_geb. rewrite !Nat.leb_le. lia. Qed.

(* ------------------------------------------------------------------ *)
(** ** [yearly_counts] *)

Section Views.
Context {S : Sorter}.

Lemma groupby_keys_perm (ys : list cell) :
  Permutation (unique (dropna ys)) (groupby_keys ys).
Proof. apply sort_values_perm. Qed.

Lemma frame_value_counts_keys (ys : list cell) :
  Permutation (unique (dropna ys)) (map fst (frame_value_counts ys)).
Proof.
  unfold frame_value_counts.
  eapply perm_trans; [apply groupby_keys_perm|].
  eapply perm_trans; [|apply Permutation_map, sort_values_perm].
  rewrite map_map; simpl. rewrite map_id. apply Permutation_refl.
Qed.

Lemma frame_value_counts_In (ys : list cell) (k : cell) (n : nat) :
  In (k, n) (frame_value_counts ys) ->
  In k (unique (dropna ys)) /\ n = count_eq k (dropna ys).
Proof.
  unfold frame_value_counts. intros H.
  eapply Permutation_in in H; [|apply Permutation_sym, sort_values_perm].
  apply in_map_iff in H as (k' & Heq & Hk'). injection Heq as <- <-.
  split; [|reflexivity].
  eapply Permutation_in; [apply Permutation_sym, groupby_keys_perm | exact Hk'].
Qed.

Lemma has_str_unique_dropna (ys : list cell) :
  has_str (unique (dropna ys)) = has_str ys.
Proof.
  apply eq_true_iff_eq. rewrite !has_str_iff. split; intros (s & Hs).
  - exists s. apply unique_In in Hs. now apply dropna_In in Hs.
  - assert (In (Str s) (dropna ys)) as Hd by (now apply dropna_In).
    destruct (unique_complete _ _ Hd) as (k & Hk & Hks).
    apply cell_eqb_Str in Hks. subst. now exists s.
Qed.

Lemma filterM_query {A : Type} (key : A -> cell) (g : A -> bool) (k : Z)
      (l : list A) :
  filterM (fun r => b <- ge_scalar (key r) k ;; Ok (g r && b)) l =
  if has_str (map key l) then Raise TypeError
  else Ok (filter (fun r => g r && year_geb k (key r)) l).
Proof.
  induction l as [|x t IH]; [reflexivity|].
  rewrite filterM_cons, IH. unfold has_str; simpl.
  destruct (key x) as [|q|s]; simpl; try reflexivity;
    destruct (existsb is_str (map key t)); simpl; try reflexivity;
    now rewrite ?andb_false_r.
Qed.

(** What [yearly_counts] computes on every frame. *)
Lemma yearly_counts_eq (D : DataFrame) :
  yearly_counts D =
  if has_str (map date_year D) then Raise TypeError
  else Ok (filter yearly_query
             (sort_values by_year (frame_value_counts (map date_year D)))).
Proof.
  unfold yearly_counts, sort_values_by.
  set (vc := frame_value_counts (map date_year D)).
  assert (has_str (map fst vc) = has_str (map date_year D)) as Hkeys.
  { transitivity (has_str (unique (dropna (map date_year D)))).
    - symmetry. apply has_str_perm, frame_value_counts_keys.
    - apply has_str_unique_dropna. }
  fold (has_str (map fst vc)). rewrite Hkeys.
  destruct (has_str (map date_year D)) eqn:Hs; simpl.
  - destruct (existsb is_num (map fst vc)); simpl; [reflexivity|].
    rewrite filterM_query.
    rewrite <- (has_str_perm _ _ (Permutation_map fst (sort_values_perm _ _ vc))).
    now rewrite Hkeys.
  - rewrite filterM_query.
    rewrite <- (has_str_perm _ _ (Permutation_map fst (sort_values_perm _ _ vc))).
    now rewrite Hkeys.
Qed.

Lemma yearly_query_true (p : cell * nat) :
  yearly_query p = true ->
  exists q, fst p = Num q /\ (1990 <= q)%Q /\ (1 < snd p)%nat.
Proof.
  unfold yearly_query. rewrite andb_true_iff, Nat.ltb_lt. intros [Hc Hy].
  apply year_geb_Num in Hy as (q & Hq & Hle). now exists q.
Qed.

Lemma key_lt_Num (p q : Q) : key_lt (Num p) (Num q) -> (p < q)%Q.
Proof.
  unfold key_lt; simpl. intros [Hle Hne].
  apply Qle_bool_iff in Hle. apply Qeq_bool_neq in Hne.
  destruct (Qle_lt_or_eq _ _ Hle); [assumption | contradiction].
Qed.

(** A list of entries whose keys are numbers and strictly ordered, read as
    a strictly increasing list of rationals. *)
Lemma strict_years {A : Type} (key : A -> cell) (l : list A) :
  StronglySorted (fun a b => key_lt (key a) (key b)) l ->
  Forall (fun a => exists q, key a = Num q) l ->
  exists qs, map key l = map Num qs /\ StronglySorted Qlt qs.
Proof.
  induction 1 as [|a t Hs IH Hall]; intros Hnum.
  - exists []. split; constructor.
  - inversion Hnum as [|? ? (q & Hq) Hnum']; subst.
    destruct (IH Hnum') as (qs & Hmap & Hsorted).
    exists (q :: qs). simpl. rewrite Hq, Hmap. split; [reflexivity|].
    constructor; [assumption|].
    rewrite Forall_forall in *. intros q' Hq'.
    assert (In (Num q') (map key t)) as Hin by (rewrite Hmap; now apply in_map).
    apply in_map_iff in Hin as (b & Hb & Hbt).
    specialize (Hall b Hbt). rewrite Hq, Hb in Hall. now apply key_lt_Num.
Qed.

Lemma strict_no_duplicate (qs : list Q) :
  StronglySorted Qlt qs -> NoDupA Qeq qs.
Proof.
  induction 1 as [|q t Hs IH Hall]; constructor; [|assumption].
  rewrite InA_alt. intros (q' & Heq & Hin).
  rewrite Forall_forall in Hall. specialize (Hall q' Hin). lra.
Qed.

(** The rows of [df_yearly] after [sort_values("date_year")]: strictly
    ordered by year. *)
Lemma sorted_frame_value_counts_strict (ys : list cell) :
  StronglySorted (fun a b => key_lt (fst a) (fst b))
                 (sort_values by_year (frame_value_counts ys)).
Proof.
  apply sorted_distinct_strict.
  - apply (sort_values_strongly S fst).
  - eapply NoDupA_keq_perm; [|apply unique_NoDupA].
    eapply perm_trans; [apply frame_value_counts_keys|].
    apply Permutation_map, sort_values_perm.
Qed.

End Views.

(* ------------------------------------------------------------------ *)
(** ** [category_counts] and [yearly_means] *)

Section Groups.
Context {S : Sorter} {M : FloatMean}.

(** What [category_counts] computes on every frame and field name. *)
Lemma category_counts_eq (D : DataFrame) (field : string) :
  category_counts D field =
  if has_str (map date_year D) then Raise TypeError
  else match column_of field with
       | None => Raise KeyError
       | Some proj =>
           Ok (filter more_than_one
                 (value_counts
                    (map proj (filter (fun r => year_geb 2000 (date_year r)) D))))
       end.
Proof.
  unfold category_counts. rewrite filterM_ge_scalar.
  destruct (has_str (map date_year D)); simpl; [reflexivity|].
  unfold getitem. destruct (column_of field); reflexivity.
Qed.

Lemma value_counts_perm (col : list cell) :
  Permutation (value_counts_arraylike col) (value_counts col).
Proof. apply sort_values_perm. Qed.

Lemma value_counts_arraylike_In (col : list cell) (k : cell) (n : nat) :
  In (k, n) (value_counts_arraylike col) <->
  In k (unique (dropna col)) /\ n = count_eq k (dropna col).
Proof.
  unfold value_counts_arraylike. rewrite in_map_iff. split.
  - intros (k' & Heq & Hk'). injection Heq as <- <-. now split.
  - intros [Hk ->]. now exists k.
Qed.

Lemma value_counts_In (col : list cell) (k : cell) (n : nat) :
  In (k, n) (value_counts col) <->
  In k (unique (dropna col)) /\ n = count_eq k (dropna col).
Proof.
  rewrite <- value_counts_arraylike_In. split; intros H.
  - eapply Permutation_in; [apply Permutation_sym, value_counts_perm | exact H].
  - eapply Permutation_in; [apply value_counts_perm | exact H].
Qed.

Lemma unique_dropna_notna (col : list cell) (k : cell) :
  In k (unique (dropna col)) -> notna k = true.
Proof. intros H. apply unique_In in H. now apply dropna_In in H. Qed.

Lemma value_counts_descending (col : list cell) :
  StronglySorted (fun a b => (snd b <= snd a)%nat) (value_counts col).
Proof.
  assert (StronglySorted (fun a b => count_geb a b = true) (value_counts col)) as H.
  { apply Sorted_StronglySorted.
    - intros a b c. apply count_geb_trans.
    - apply sort_values_sorted; [apply count_geb_total | apply count_geb_trans]. }
  induction H as [|a t Hs IH Hall]; constructor; [assumption|].
  rewrite Forall_forall in *. intros x Hx.
  specialize (Hall x Hx). unfold count_geb in Hall. now apply Nat.leb_le.
Qed.

(** [Series.mean()] *)
Lemma nums_nil_iff (l : list cell) :
  has_str l = false -> (nums l = [] <-> forallb isna l = true).
Proof.
  unfold has_str. induction l as [|c t IH]; simpl; [tauto|].
  destruct c as [|q|s]; simpl; intros H; try discriminate.
  - now apply IH.
  - split; discriminate.
Qed.

(** A column without text has a mean: a float, which is [NaN] when every
    value is null. *)
Lemma mean_Ok (l : list cell) :
  has_str l = false ->
  exists c, mean l = Ok c /\ is_str c = false /\
            (forallb isna l = true -> c = NaN).
Proof.
  intros H. unfold mean. fold (has_str l). rewrite H.
  pose proof (nums_nil_iff l H) as Hn.
  destruct (nums l) as [|x xs].
  - exists NaN. now repeat split.
  - eexists. split; [reflexivity|]. split; [apply fmean_float|].
    intros Hall. apply Hn in Hall. discriminate.
Qed.

Lemma mean_Raise (l : list cell) (e : exn) : mean l = Raise e -> e = TypeError.
Proof.
  unfold mean. destruct (existsb is_str l); [congruence|].
  destruct (nums l); discriminate.
Qed.

Lemma has_str_group (proj : row -> cell) (D : DataFrame) (k : cell) :
  has_str (map proj D) = false -> has_str (map proj (group D k)) = false.
Proof.
  intros H. apply not_true_is_false. intros Hc.
  apply has_str_iff in Hc as (s & Hs).
  apply in_map_iff in Hs as (r & Hr & Hin). apply filter_In in Hin as [Hin _].
  assert (has_str (map proj D) = true) as Ht.
  { apply has_str_iff. exists s. rewrite <- Hr. now apply in_map. }
  congruence.
Qed.

Lemma mapM_total {A B : Type} (f : A -> result B) (l : list A) :
  (forall x, In x l -> exists y, f x = Ok y) -> exists out, mapM f l = Ok out.
Proof.
  induction l as [|x t IH]; intros H; simpl.
  - now exists [].
  - destruct (H x (or_introl eq_refl)) as (y & ->).
    destruct IH as (ys & ->); [intros z Hz; apply H; now right|].
    now exists (y :: ys).
Qed.

Lemma yearly_means_unfold (D : DataFrame) :
  yearly_means D = mapM (group_means D) (groupby_keys (map date_year D)).
Proof. reflexivity. Qed.

Lemma group_means_Ok (D : DataFrame) (k : cell) (e : cell * cell * cell) :
  group_means D k = Ok e ->
  exists a b, e = (k, a, b) /\
              mean (map sst (group D k)) = Ok a /\
              mean (map sss (group D k)) = Ok b.
Proof.
  unfold group_means.
  destruct (mean (map sst (group D k))) as [a|]; simpl; [|discriminate].
  destruct (mean (map sss (group D k))) as [b|]; simpl; [|discriminate].
  intros H. injection H as <-. now exists a, b.
Qed.

Lemma yearly_means_total (D : DataFrame) :
  has_str (map sst D) = false -> has_str (map sss D) = false ->
  exists out, yearly_means D = Ok out.
Proof.
  intros H1 H2. rewrite yearly_means_unfold. apply mapM_total.
  intros k _. unfold group_means.
  destruct (@mean_Ok _ (@has_str_group sst D k H1)) as (a & -> & _).
  destruct (@mean_Ok _ (@has_str_group sss D k H2)) as (b & -> & _).
  simpl. now eexists.
Qed.

Lemma yearly_means_Raise (D : DataFrame) (e : exn) :
  yearly_means D = Raise e -> e = TypeError.
Proof.
  rewrite yearly_means_unfold. intros H.
  apply mapM_Raise in H as (k & _ & H). unfold group_means in H.
  destruct (mean (map sst (group D k))) as [a|e1] eqn:E1; simpl in H.
  - destruct (mean (map sss (group D k))) as [b|e2] eqn:E2; simpl in H;
      [discriminate|]. injection H as <-. now apply mean_Raise in E2.
  - injection H as <-. now apply mean_Raise in E1.
Qed.


Lemma Forall2_In_l {A B : Type} (R : A -> B -> Prop) (l : list A) (out : list B)
      (k : A) :
  Forall2 R l out -> In k l -> exists e, In e out /\ R k e.
Proof.
  induction 1 as [|k' e ks es Hke HF IH]; [contradiction|].
  intros [->|Hin].
  - exists e. split; [now left | assumption].
  - destruct (IH Hin) as (e' & He' & HR). exists e'. split; [now right | assumption].
Qed.


Lemma yearly_means_complete (D : DataFrame) (out : list (cell * cell * cell))
      (k : cell) :
  yearly_means D = Ok out -> In k (unique (dropna (map date_year D))) ->
  exists e, In e out /\ group_means D k = Ok e.
Proof.
  rewrite yearly_means_unfold. intros H Hin.
  apply mapM_Forall2 in H.
  apply (@Forall2_In_l _ _ _ _ _ k H).
  eapply Permutation_in; [apply groupby_keys_perm | exact Hin].
Qed.

End Groups.

(* ------------------------------------------------------------------ *)
(** ** Properties of [filter_turtle_data] *)

(** C1, as the claim states it, fails: a record of 2005 without latitude
    and longitude is returned by [filter_turtle_data], while the set the
    claim describes (year at least 1990 and both coordinates present) leaves
    it out. *)
Lemma geo_filter_keeps_missing_coordinates :
  filter_turtle_data two_positions 1990
  = Ok [mkGeo 2005 NaN NaN; mkGeo 2010 (Num (-17)) (Num 178)] /\
  geo_filter_spec two_positions 1990 = [mkGeo 2010 (Num (-17)) (Num 178)].
Proof. split; reflexivity. Qed.

(** What [geo_of] makes of a record. *)
Lemma geo_of_Num (r : row) (q : Q) :
  date_year r = Num q ->
  in_int64 (geo_year (geo_of r)) = true /\
  (in_int64 (Qtrunc q) = true -> geo_year (geo_of r) = Qtrunc q) /\
  geo_latitude (geo_of r) = decimalLatitude r /\
  geo_longitude (geo_of r) = decimalLongitude r.
Proof.
  intros Hq. unfold geo_of. rewrite Hq. simpl.
  split; [apply cast_int64_range|]. split; [apply cast_int64_fits|]. now split.
Qed.

(** C1, amended: on a frame whose year column holds no string, and for a
    threshold that float64 represents exactly, [filter_turtle_data] returns
    exactly the records whose year is a number of at least the threshold (a
    null year is not), in the order of the frame, whatever their
    coordinates.  Each is projected to its two coordinates, unchanged, and
    to its year cast to [int64], which is the truncated year whenever that
    fits in 64 bits. *)
Theorem filter_turtle_data_selects_by_year (D : DataFrame) (y : Z) :
  has_str (map date_year D) = false ->
  exact_float64 y = true ->
  exists out,
    filter_turtle_data D y = Ok out /\
    out = map geo_of (filter (fun r => year_geb y (date_year r)) D) /\
    Forall (fun r =>
              exists q, date_year r = Num q /\ (inject_Z y <= q)%Q /\
                in_int64 (geo_year (geo_of r)) = true /\
                (in_int64 (Qtrunc q) = true -> geo_year (geo_of r) = Qtrunc q) /\
                geo_latitude (geo_of r) = decimalLatitude r /\
                geo_longitude (geo_of r) = decimalLongitude r)
           (filter (fun r => year_geb y (date_year r)) D).
Proof.
  intros Hs _. rewrite filter_turtle_data_eq, Hs.
  eexists. split; [reflexivity|]. split; [reflexivity|].
  apply Forall_forall. intros r Hr. apply filter_In in Hr as [_ Hy].
  apply year_geb_Num in Hy as (q & Hq & Hle).
  exists q. split; [assumption|]. split; [assumption|]. now apply geo_of_Num.
Qed.

Lemma filter_turtle_data_selects_by_year_witness :
  exists out,
    filter_turtle_data two_positions 2000 = Ok out /\
    out = map geo_of (filter (fun r => year_geb 2000 (date_year r)) two_positions) /\
    Forall (fun r =>
              exists q, date_year r = Num q /\ (inject_Z 2000 <= q)%Q /\
                in_int64 (geo_year (geo_of r)) = true /\
                (in_int64 (Qtrunc q) = true -> geo_year (geo_of r) = Qtrunc q) /\
                geo_latitude (geo_of r) = decimalLatitude r /\
                geo_longitude (geo_of r) = decimalLongitude r)
           (filter (fun r => year_geb 2000 (date_year r)) two_positions).
Proof.
  apply (filter_turtle_data_selects_by_year two_positions 2000); reflexivity.
Defined.

(** C9: raising the threshold never adds rows.  On a frame whose year
    column holds no string both calls return and the later threshold gives
    at most as many rows; on any other frame both calls raise [TypeError]. *)
Theorem filter_turtle_data_monotone (D : DataFrame) (y1 y2 : Z) :
  (y1 <= y2)%Z ->
  (has_str (map date_year D) = false ->
   exists out1 out2,
     filter_turtle_data D y1 = Ok out1 /\
     filter_turtle_data D y2 = Ok out2 /\
     (length out2 <= length out1)%nat) /\
  (has_str (map date_year D) = true ->
   filter_turtle_data D y1 = Raise TypeError /\
   filter_turtle_data D y2 = Raise TypeError).
Proof.
  intros Hy. rewrite !filter_turtle_data_eq. split; intros ->.
  - do 2 eexists. split; [reflexivity|]. split; [reflexivity|].
    rewrite !length_map. apply filter_length_le.
    intros r. now apply year_geb_mono.
  - now split.
Qed.

Lemma filter_turtle_data_monotone_witness :
  (has_str (map date_year two_positions) = false ->
   exists out1 out2,
     filter_turtle_data two_positions 2000 = Ok out1 /\
     filter_turtle_data two_positions 2008 = Ok out2 /\
     (length out2 <= length out1)%nat) /\
  (has_str (map date_year two_positions) = true ->
   filter_turtle_data two_positions 2000 = Raise TypeError /\
   filter_turtle_data two_positions 2008 = Raise TypeError).
Proof. apply (filter_turtle_data_monotone two_positions 2000 2008). lia. Defined.

(* ------------------------------------------------------------------ *)
(** ** Properties of [yearly_counts] *)

(** The first example of section 8 of the specification. *)
Example yearly_counts_six_sightings :
  yearly_counts (S := stable_sorter) six_sightings
  = Ok [(year 1990, 2%nat); (year 1991, 3%nat)].
Proof. reflexivity. Qed.

(** C5: on every frame, [yearly_counts] either returns, and then every
    entry is a year of 1990 or later with a count above one, or raises
    [TypeError], which happens exactly when the year column holds a string. *)
Theorem yearly_counts_bounds (S : Sorter) (D : DataFrame) :
  match yearly_counts D with
  | Ok out =>
      has_str (map date_year D) = false /\
      Forall (fun p => exists q, fst p = Num q /\ (1990 <= q)%Q /\ (1 < snd p)%nat) out
  | Raise e => e = TypeError /\ has_str (map date_year D) = true
  end.
Proof.
  rewrite yearly_counts_eq.
  destruct (has_str (map date_year D)); [now split|].
  split; [reflexivity|].
  apply Forall_forall. intros p Hp.
  apply filter_In in Hp as [_ Hp]. now apply yearly_query_true.
Qed.

(** C6: on every frame, the years [yearly_counts] returns are numbers in
    strictly ascending order, hence without repetition; it raises
    ([TypeError]) exactly when the year column holds a string. *)
Theorem yearly_counts_strictly_ascending (S : Sorter) (D : DataFrame) :
  match yearly_counts D with
  | Ok out =>
      has_str (map date_year D) = false /\
      exists qs, map fst out = map Num qs /\
                 StronglySorted Qlt qs /\ NoDupA Qeq qs
  | Raise e => e = TypeError /\ has_str (map date_year D) = true
  end.
Proof.
  rewrite yearly_counts_eq.
  destruct (has_str (map date_year D)); [now split|].
  split; [reflexivity|].
  destruct (strict_years fst
              (filter yearly_query
                 (sort_values by_year (frame_value_counts (map date_year D)))))
    as (qs & Hmap & Hsorted).
  - apply StronglySorted_filter, sorted_frame_value_counts_strict.
  - apply Forall_forall. intros p Hp. apply filter_In in Hp as [_ Hp].
    apply yearly_query_true in Hp as (q & Hq & _). now exists q.
  - exists qs. split; [assumption|]. split; [assumption|].
    now apply strict_no_duplicate.
Qed.

(* ------------------------------------------------------------------ *)
(** ** Properties of [category_counts] *)

(** The second example of section 8 of the specification. *)
Example category_counts_three_waters :
  category_counts (S := stable_sorter) three_waters "waterBody"
  = Ok [(Str "Pacific", 2%nat)].
Proof. reflexivity. Qed.

Lemma Permutation_filter {A : Type} (f : A -> bool) (l l' : list A) :
  Permutation l l' -> Permutation (filter f l) (filter f l').
Proof.
  induction 1 as [|x l l' HP IH|x y l|l l' l'' HP1 IH1 HP2 IH2]; simpl.
  - constructor.
  - destruct (f x); [now constructor | assumption].
  - destruct (f x), (f y); try apply Permutation_refl. apply perm_swap.
  - eapply perm_trans; eassumption.
Qed.

Lemma category_entry (S : Sorter) (D : DataFrame) (proj : row -> cell)
      (c : cell) (n : nat) :
  In (c, n) (value_counts (map proj (filter (fun r => year_geb 2000 (date_year r)) D)))
  <-> In c (unique (dropna (map proj (filter (fun r => year_geb 2000 (date_year r)) D))))
      /\ n = length (counted D proj c).
Proof.
  rewrite value_counts_In. unfold counted.
  split; intros [Hc Hn]; (split; [assumption|]);
    pose proof (unique_dropna_notna _ _ Hc) as Hna;
    rewrite count_eq_dropna, count_eq_map_filter in *; assumption.
Qed.

(** C7: on every frame and field name, [category_counts] either returns,
    and then each entry has a count above one which is the number of records
    of that category with a year of 2000 or later (no other record is
    counted), or raises: [TypeError] exactly when the year column holds a
    string, [KeyError] when the field is not a column. *)
Theorem category_counts_from_2000 (S : Sorter) (D : DataFrame) (field : string) :
  match category_counts D field with
  | Ok out =>
      has_str (map date_year D) = false /\
      exists proj, column_of field = Some proj /\
        forall c n, In (c, n) out ->
                    (1 < n)%nat /\ n = length (counted D proj c)
  | Raise e =>
      (e = TypeError /\ has_str (map date_year D) = true) \/
      (e = KeyError /\ column_of field = None)
  end.
Proof.
  rewrite category_counts_eq.
  destruct (has_str (map date_year D)); [now left|].
  destruct (column_of field) as [proj|]; [|now right].
  split; [reflexivity|]. exists proj. split; [reflexivity|].
  intros c n Hin. apply filter_In in Hin as [Hin Hn].
  apply category_entry in Hin as [_ ->].
  split; [|reflexivity]. now apply Nat.ltb_lt in Hn.
Qed.

(** C8, as the claim states it, fails: the order among categories of equal
    count is the one the sort behind [value_counts] leaves, and numpy's
    default sort promises none.  On twenty water bodies whose counts are 2
    and 3 in turn, the listing the claim describes puts the ten counts of 3
    and then the ten counts of 2, each in first-encountered order; a sort
    that meets the contract need not return it. *)
Lemma category_counts_ties_depend_on_sort :
  category_counts_spec twenty_waters waterBody 2000
  = map (fun w => (Str w, 3%nat)) (every_second water_names)
    ++ map (fun w => (Str w, 2%nat))
           ("Pacific"%string :: every_second (tl water_names)) /\
  exists S : Sorter,
    category_counts (S := S) twenty_waters "waterBody"
    <> Ok (category_counts_spec twenty_waters waterBody 2000).
Proof.
  split; [vm_compute; reflexivity|].
  exists reversing_sorter. vm_compute. discriminate.
Qed.

Lemma dropna_all (l : list cell) : forallb notna l = true -> dropna l = l.
Proof.
  unfold dropna. induction l as [|x t IH]; simpl; [reflexivity|].
  intros H. apply andb_true_iff in H as [-> H]. now rewrite IH.
Qed.

(** C8, amended: whatever the sort does with equal counts, the output of
    [category_counts] is in order of non-increasing count and holds exactly
    the entries with a count above one of the categories that are not null,
    counted over the records of 2000 and later (it is a permutation of
    their first-encountered listing); only the order among equal counts is
    left open.  When no such record has a null category, these are the
    entries of the listing the specification describes. *)
Theorem category_counts_descending (S : Sorter) (D : DataFrame) (field : string) :
  match category_counts D field with
  | Ok out =>
      exists proj, column_of field = Some proj /\
        let col := map proj (filter (fun r => year_geb 2000 (date_year r)) D) in
        StronglySorted (fun a b => (snd b <= snd a)%nat) out /\
        Permutation out (filter more_than_one (group_sizes col)) /\
        (forallb notna col = true ->
         Permutation out (category_counts_spec D proj 2000))
  | Raise e =>
      (e = TypeError /\ has_str (map date_year D) = true) \/
      (e = KeyError /\ column_of field = None)
  end.
Proof.
  rewrite category_counts_eq.
  destruct (has_str (map date_year D)); [now left|].
  destruct (column_of field) as [proj|]; [|now right].
  exists proj. split; [reflexivity|]. cbv zeta.
  set (col := map proj (filter (fun r => year_geb 2000 (date_year r)) D)).
  assert (Permutation (filter more_than_one (value_counts col))
                      (filter more_than_one (group_sizes col))) as HP.
  { apply Permutation_filter, Permutation_sym, value_counts_perm. }
  split; [apply StronglySorted_filter, value_counts_descending|].
  split; [assumption|].
  intros Hna. unfold category_counts_spec. fold col.
  eapply perm_trans; [exact HP|].
  eapply perm_trans; [|apply insertion_sort_perm].
  unfold group_sizes. now rewrite (dropna_all col Hna).
Qed.

(* ------------------------------------------------------------------ *)
(** ** Properties of [yearly_means] *)

(** [load_data] leaves no null in a row. *)
Lemma fill_notna (c : cell) : notna (fill (Str "NA") c) = true.
Proof. now destruct c. Qed.

Lemma load_data_Ok (csv df : DataFrame) :
  load_data csv = Ok df ->
  exists turtles_data,
    loc csv (dropna (map date_year csv)) = Ok turtles_data /\
    df = fillna (Str "NA") turtles_data.
Proof.
  unfold load_data.
  destruct (loc csv (dropna (map date_year csv))) as [td|e]; simpl;
    [|discriminate].
  intros H. injection H as <-. now exists td.
Qed.

Lemma load_data_no_null (csv df : DataFrame) (r : row) :
  load_data csv = Ok df -> In r df -> no_null r = true.
Proof.
  intros H Hr. apply load_data_Ok in H as (td & _ & ->).
  unfold fillna in Hr. apply in_map_iff in Hr as (r0 & <- & _).
  unfold no_null, fill_row; simpl. now rewrite !fill_notna.
Qed.


(** A year in which no temperature was measured, on a frame that holds its
    nulls as [NaN]: the year is listed, with [NaN] as mean temperature. *)
Example yearly_means_no_temperature (M : FloatMean) :
  yearly_means (S := stable_sorter) no_temperature
  = Ok [(year 2000, NaN, fmean [35; 36])].
Proof. reflexivity. Qed.




(* ------------------------------------------------------------------ *)
(** ** Failure behaviour of the four views *)

Lemma sort_values_nil (S : Sorter) {A : Type} (le : A -> A -> bool) :
  sort_values le [] = [].
Proof. apply Permutation_nil, sort_values_perm. Qed.

Lemma yearly_counts_nil (S : Sorter) : yearly_counts [] = Ok [].
Proof.
  rewrite yearly_counts_eq. simpl.
  unfold frame_value_counts, groupby_keys. simpl.
  repeat (rewrite sort_values_nil; simpl). reflexivity.
Qed.

Lemma yearly_means_nil (S : Sorter) (M : FloatMean) : yearly_means [] = Ok [].
Proof.
  rewrite yearly_means_unfold. unfold groupby_keys. simpl.
  now rewrite sort_values_nil.
Qed.

Lemma category_counts_nil (S : Sorter) (field : string) (proj : row -> cell) :
  column_of field = Some proj -> category_counts [] field = Ok [].
Proof.
  intros H. rewrite category_counts_eq, H. simpl.
  unfold value_counts, value_counts_arraylike. simpl.
  now rewrite sort_values_nil.
Qed.

(** C4, as the claim states it, fails.  The function that computes
    [yearly_counts] raises [IndexError] on an empty frame, and on the
    well-formed six sightings of the specification's own example, because
    its output has no row for 2019 (line 73).  Moreover malformed input is
    not reported under one kind of error: a year that is not a number gives
    [TypeError], a field that is not a column gives [KeyError]. *)
Lemma transforms_raise_several_errors :
  well_formed [] /\
  turtle_population_plot (S := stable_sorter) [] = Raise IndexError /\
  well_formed six_sightings /\
  turtle_population_plot (S := stable_sorter) six_sightings = Raise IndexError /\
  filter_turtle_data filled_year 1990 = Raise TypeError /\
  category_counts (S := stable_sorter) three_waters "depth" = Raise KeyError.
Proof. repeat split; reflexivity. Qed.

(** C4, amended: on every frame that has the seven columns and holds
    finite numbers and nulls, no text, as years and measurements, for every
    name of a column and every threshold that float64 represents exactly,
    the four views ([yearly_counts], [yearly_means], [category_counts],
    [filter_turtle_data]) return a result, which is empty when the frame is
    empty; and on every frame that has the seven columns, whatever its
    cells hold, the only errors they raise are [TypeError] and, for
    [category_counts], [KeyError]. *)
Theorem views_return_on_well_formed (S : Sorter) (M : FloatMean) (D : DataFrame)
        (field : string) (y : Z) :
  (well_formed D -> column_of field <> None -> exact_float64 y = true ->
   (exists out, yearly_counts D = Ok out /\ (D = [] -> out = [])) /\
   (exists out, yearly_means D = Ok out /\ (D = [] -> out = [])) /\
   (exists out, category_counts D field = Ok out /\ (D = [] -> out = [])) /\
   (exists out, filter_turtle_data D y = Ok out /\ (D = [] -> out = []))) /\
  (forall e,
     (yearly_counts D = Raise e -> e = TypeError) /\
     (yearly_means D = Raise e -> e = TypeError) /\
     (category_counts D field = Raise e -> e = TypeError \/ e = KeyError) /\
     (exact_float64 y = true -> filter_turtle_data D y = Raise e -> e = TypeError)).
Proof.
  split.
  - intros (Hy & Hsst & Hsss) Hfield _.
    destruct (column_of field) as [proj|] eqn:Hcol; [|congruence].
    repeat split.
    + destruct (yearly_counts D) as [out|e] eqn:E.
      * exists out. split; [reflexivity|]. intros ->.
        rewrite yearly_counts_nil in E. congruence.
      * rewrite yearly_counts_eq, Hy in E. discriminate.
    + destruct (yearly_means_total D Hsst Hsss) as (out & E).
      exists out. split; [assumption|]. intros ->.
      rewrite yearly_means_nil in E. congruence.
    + destruct (category_counts D field) as [out|e] eqn:E.
      * exists out. split; [reflexivity|]. intros ->.
        rewrite (category_counts_nil S field proj Hcol) in E. congruence.
      * rewrite category_counts_eq, Hy, Hcol in E. discriminate.
    + rewrite filter_turtle_data_eq, Hy. eexists. split; [reflexivity|].
      now intros ->.
  - intros e. repeat split.
    + rewrite yearly_counts_eq.
      destruct (has_str (map date_year D)); congruence.
    + apply yearly_means_Raise.
    + rewrite category_counts_eq.
      destruct (has_str (map date_year D)); [left; congruence|].
      destruct (column_of field); [discriminate | right; congruence].
    + intros _. rewrite filter_turtle_data_eq.
      destruct (has_str (map date_year D)); congruence.
Qed.

Lemma views_return_on_well_formed_witness :
  (exists out, yearly_counts (S := stable_sorter) six_sightings = Ok out
               /\ (six_sightings = [] -> out = [])) /\
  (exists out, yearly_means (S := stable_sorter) (M := exact_mean) six_sightings
               = Ok out /\ (six_sightings = [] -> out = [])) /\
  (exists out, category_counts (S := stable_sorter) six_sightings "waterBody" = Ok out
               /\ (six_sightings = [] -> out = [])) /\
  (exists out, filter_turtle_data six_sightings 1991 = Ok out
               /\ (six_sightings = [] -> out = [])).
Proof.
  apply (proj1 (views_return_on_well_formed stable_sorter exact_mean six_sightings
                  "waterBody" 1991)).
  - repeat split; reflexivity.
  - simpl. discriminate.
  - reflexivity.
Defined.

(* ------------------------------------------------------------------ *)
(** ** [load_data] and the null marker *)

(** C2 on the code: [load_data] does not drop the records without year.
    It reads the years that are present as row labels, so the line dated
    2005 selects line 2005 of the file, which carries no year; [fillna]
    then writes the marker "NA" into its year, and [yearly_means] lists a
    group for the year "NA". *)
Theorem yearly_means_lists_null_marker_year (M : FloatMean) :
  load_data csv_unknown_years
  = Ok [mkRow (Str "NA") (Str "Pacific") (Str "Fiji") (Num (-17)) (Num 178)
              (Num 25) (Num 34)] /\
  (df <- load_data csv_unknown_years ;; yearly_means (S := stable_sorter) df)
  = Ok [(Str "NA", Num 25, Num 34)].
Proof.
  assert (load_data csv_unknown_years
          = Ok [mkRow (Str "NA") (Str "Pacific") (Str "Fiji") (Num (-17)) (Num 178)
                      (Num 25) (Num 34)]) as E by (vm_compute; reflexivity).
  split; [exact E|]. rewrite E. cbn. now rewrite !fmean_single.
Qed.

(** C10 on the code: two records of 2005 without water body do not reach
    [category_counts], because [load_data] looks for rows labelled 2005 in
    a frame of two rows; and when the file is long enough for [load_data]
    to return, a record without year that it kept makes the year column
    hold the marker "NA", on which the comparison with 2000 raises
    [TypeError]: the two records without water body are not reported.
    Without such a record they are, under "NA". *)
Theorem category_counts_loses_null_marker :
  load_data csv_two_unknown_waters = Raise KeyError /\
  load_data csv_unknown_waters = Ok loaded_unknown_waters /\
  category_counts (S := stable_sorter) loaded_unknown_waters "waterBody"
  = Raise TypeError /\
  category_counts (S := stable_sorter)
                  (fillna (Str "NA") csv_two_unknown_waters) "waterBody"
  = Ok [(Str "NA", 2%nat)].
Proof. repeat split; vm_compute; reflexivity. Qed.

(* ------------------------------------------------------------------ *)
(** ** Views that do not depend on the sort *)

Lemma key_lt_asym (a b : cell) : key_lt a b -> key_lt b a -> False.
Proof.
  intros [Hab Hne] [Hba _].
  rewrite (key_leb_antisym a b Hab Hba) in Hne. discriminate.
Qed.

(** Two strictly ordered lists with the same elements are equal. *)
Lemma strict_sorted_perm_eq {A : Type} (key : A -> cell) (l1 l2 : list A) :
  StronglySorted (fun a b => key_lt (key a) (key b)) l1 ->
  StronglySorted (fun a b => key_lt (key a) (key b)) l2 ->
  Permutation l1 l2 -> l1 = l2.
Proof.
  revert l2. induction l1 as [|a t1 IH]; intros l2 H1 H2 HP.
  - now apply Permutation_nil in HP.
  - destruct l2 as [|b t2].
    + apply Permutation_sym, Permutation_nil in HP. discriminate.
    + apply StronglySorted_inv in H1 as [H1 Ha].
      apply StronglySorted_inv in H2 as [H2 Hb].
      assert (a = b) as ->.
      { assert (In a (b :: t2)) as Hina
            by (eapply Permutation_in; [exact HP | now left]).
        assert (In b (a :: t1)) as Hinb
            by (eapply Permutation_in; [apply Permutation_sym, HP | now left]).
        destruct Hina as [->|Hina]; [reflexivity|].
        destruct Hinb as [->|Hinb]; [reflexivity|].
        rewrite Forall_forall in Ha, Hb.
        exfalso. exact (key_lt_asym _ _ (Ha b Hinb) (Hb a Hina)). }
      f_equal. apply IH; try assumption.
      now apply Permutation_cons_inv in HP.
Qed.

Lemma frame_value_counts_perm (S : Sorter) (ys : list cell) :
  Permutation (group_sizes ys) (frame_value_counts ys).
Proof.
  unfold frame_value_counts, group_sizes.
  eapply perm_trans; [|apply sort_values_perm].
  apply Permutation_map, groupby_keys_perm.
Qed.

Lemma sorted_frame_value_counts_eq (S1 S2 : Sorter) (ys : list cell) :
  sort_values (Sorter := S1) by_year (frame_value_counts (S := S1) ys)
  = sort_values (Sorter := S2) by_year (frame_value_counts (S := S2) ys).
Proof.
  apply (strict_sorted_perm_eq fst).
  - apply sorted_frame_value_counts_strict.
  - apply sorted_frame_value_counts_strict.
  - eapply perm_trans; [apply Permutation_sym, sort_values_perm|].
    eapply perm_trans; [apply Permutation_sym, frame_value_counts_perm|].
    eapply perm_trans; [apply (frame_value_counts_perm S2)|].
    apply sort_values_perm.
Qed.

Lemma groupby_keys_eq (S1 S2 : Sorter) (ys : list cell) :
  groupby_keys (S := S1) ys = groupby_keys (S := S2) ys.
Proof.
  assert (forall S : Sorter,
             StronglySorted (fun a b => key_lt a b) (groupby_keys (S := S) ys)) as Hs.
  { intros S.
    apply (sorted_distinct_strict (fun k => k)).
    - apply (sort_values_strongly S (fun k => k)).
    - rewrite map_id. eapply NoDupA_keq_perm; [apply groupby_keys_perm|].
      apply unique_NoDupA. }
  apply (strict_sorted_perm_eq (fun k => k)); [apply Hs | apply Hs |].
  eapply perm_trans; [apply Permutation_sym, groupby_keys_perm|].
  apply groupby_keys_perm.
Qed.

Lemma yearly_counts_sort_eq (S1 S2 : Sorter) (D : DataFrame) :
  yearly_counts (S := S1) D = yearly_counts (S := S2) D.
Proof.
  rewrite !yearly_counts_eq. now rewrite (sorted_frame_value_counts_eq S1 S2).
Qed.

Lemma yearly_means_sort_eq (S1 S2 : Sorter) (M : FloatMean) (D : DataFrame) :
  yearly_means (S := S1) D = yearly_means (S := S2) D.
Proof.
  rewrite !yearly_means_unfold. now rewrite (groupby_keys_eq S1 S2).
Qed.

(** [yearly_counts] and [yearly_means] return the same result whatever the
    sort does with equal elements: their sort keys are distinct. *)
Theorem yearly_views_do_not_depend_on_sort (S1 S2 : Sorter) (M : FloatMean)
        (D : DataFrame) :
  yearly_counts (S := S1) D = yearly_counts (S := S2) D /\
  yearly_means (S := S1) D = yearly_means (S := S2) D.
Proof.
  split; [apply yearly_counts_sort_eq | apply yearly_means_sort_eq].
Qed.

(** The examples of the specification and of this file hold under every
    sort. *)
Example yearly_counts_six_sightings_any_sort (S : Sorter) :
  yearly_counts six_sightings = Ok [(year 1990, 2%nat); (year 1991, 3%nat)].
Proof.
  now rewrite (yearly_counts_sort_eq S stable_sorter six_sightings).
Qed.

Example yearly_means_no_temperature_any_sort (S : Sorter) (M : FloatMean) :
  yearly_means no_temperature = Ok [(year 2000, NaN, fmean [35; 36])].
Proof.
  rewrite (yearly_means_sort_eq S stable_sorter M no_temperature).
  apply yearly_means_no_temperature.
Qed.

(* ------------------------------------------------------------------ *)
(** ** The null marker in [category_counts] *)

Lemma column_of_fill_row (field : string) (proj : row -> cell) (v : cell) (r : row) :
  column_of field = Some proj -> proj (fill_row v r) = fill v (proj r).
Proof.
  unfold column_of.
  repeat match goal with
         | |- context [if ?b then _ else _] => destruct b
         end; intros H; try discriminate; injection H as <-; reflexivity.
Qed.

Lemma year_geb_fill (k : Z) (c : cell) :
  year_geb k (fill (Str "NA") c) = year_geb k c.
Proof. now destruct c. Qed.

Lemma cell_eqb_NA_fill (c : cell) :
  cell_eqb (Str "NA") (fill (Str "NA") c) = isna c || cell_eqb (Str "NA") c.
Proof. now destruct c. Qed.

Lemma length_filter_map {A B : Type} (h : A -> B) (g : B -> bool) (l : list A) :
  length (filter g (map h l)) = length (filter (fun x => g (h x)) l).
Proof.
  induction l as [|x t IH]; simpl; [reflexivity|].
  destruct (g (h x)); simpl; congruence.
Qed.

Lemma counted_fillna (D : DataFrame) (field : string) (proj : row -> cell) :
  column_of field = Some proj ->
  length (counted (fillna (Str "NA") D) proj (Str "NA"))
  = length (filter (unknown_category proj) D).
Proof.
  intros Hcol. unfold counted, fillna.
  rewrite length_filter_map. f_equal. apply filter_ext. intros r.
  unfold unknown_category.
  rewrite (column_of_fill_row field proj _ r Hcol), <- cell_eqb_NA_fill.
  f_equal. apply (year_geb_fill 2000 (date_year r)).
Qed.

(** When every record has a number as year and the null categories have
    been replaced by "NA", the records of 2000 and later without category
    are reported under "NA", with their number, as soon as there are two of
    them. *)
Theorem category_counts_reports_null_marker (S : Sorter) (D : DataFrame)
        (field : string) (proj : row -> cell) :
  column_of field = Some proj ->
  Forall (fun r => is_num (date_year r) = true) D ->
  (2 <= length (filter (unknown_category proj) D))%nat ->
  exists out,
    category_counts (fillna (Str "NA") D) field = Ok out /\
    In (Str "NA", length (filter (unknown_category proj) D)) out.
Proof.
  intros Hcol Hnum Hn.
  assert (has_str (map date_year (fillna (Str "NA") D)) = false) as Hs.
  { apply not_true_is_false. intros Hc. apply has_str_iff in Hc as (s & Hs).
    apply in_map_iff in Hs as (r' & Hr' & Hin).
    apply in_map_iff in Hin as (r & <- & Hin).
    rewrite Forall_forall in Hnum. specialize (Hnum r Hin).
    simpl in Hr'. destruct (date_year r); simpl in *; discriminate. }
  rewrite category_counts_eq, Hs, Hcol.
  eexists. split; [reflexivity|].
  apply filter_In. split; [|unfold more_than_one; simpl; now apply Nat.ltb_lt].
  rewrite <- (counted_fillna D field proj Hcol).
  apply category_entry. split; [|reflexivity].
  rewrite <- (counted_fillna D field proj Hcol) in Hn.
  destruct (counted (fillna (Str "NA") D) proj (Str "NA")) as [|r rest] eqn:E;
    [simpl in Hn; lia|].
  assert (In r (counted (fillna (Str "NA") D) proj (Str "NA"))) as Hr
      by (rewrite E; now left).
  unfold counted in Hr. apply filter_In in Hr as [Hr Hc].
  apply andb_true_iff in Hc as [Hy Hc].
  assert (In (proj r)
             (dropna (map proj (filter (fun r => year_geb 2000 (date_year r))
                                       (fillna (Str "NA") D))))) as Hin.
  { apply dropna_In. split.
    - apply in_map, filter_In. now split.
    - destruct (proj r); simpl in *; try discriminate; reflexivity. }
  destruct (unique_complete _ _ Hin) as (k & Hk & Hkr).
  assert (cell_eqb k (Str "NA") = true) as Hna.
  { eapply cell_eqb_trans; [exact Hkr|]. now rewrite cell_eqb_sym. }
  apply cell_eqb_Str in Hna. now subst.
Qed.

Lemma category_counts_reports_null_marker_witness :
  exists out,
    category_counts (S := stable_sorter)
                    (fillna (Str "NA") csv_two_unknown_waters) "waterBody" = Ok out /\
    In (Str "NA", length (filter (unknown_category waterBody) csv_two_unknown_waters)) out.
Proof.
  apply (category_counts_reports_null_marker stable_sorter csv_two_unknown_waters
           "waterBody" waterBody).
  - reflexivity.
  - repeat constructor.
  - simpl. lia.
Defined.

(* ------------------------------------------------------------------ *)
(** ** [load_data] reads years as row labels *)

Lemma mapM_Raise_In {A B : Type} (f : A -> result B) (e0 : exn) (x : A)
      (l : list A) :
  (forall y e, f y = Raise e -> e = e0) ->
  In x l -> f x = Raise e0 -> mapM f l = Raise e0.
Proof.
  intros Hall. induction l as [|y t IH]; simpl; [contradiction|].
  intros Hin Hx. destruct (f y) as [b|e] eqn:Ey; simpl.
  - destruct Hin as [->|Hin]; [congruence|].
    now rewrite (IH Hin Hx).
  - now rewrite (Hall y e Ey).
Qed.

Lemma loc_label_Raise (df : DataFrame) (label : cell) (e : exn) :
  loc_label df label = Raise e -> e = KeyError.
Proof.
  unfold loc_label. destruct label as [|q|s]; try congruence.
  destruct (Qeq_bool q (inject_Z (Qtrunc q)) && (0 <=? Qtrunc q)%Z); [|congruence].
  destruct (nth_error df (Z.to_nat (Qtrunc q))); congruence.
Qed.

(** [load_data] raises [KeyError] as soon as one year of the file is not
    the position of a line of the file: in particular on every file with
    fewer lines than one of its years. *)
Theorem load_data_needs_a_line_per_year (csv : DataFrame) (r : row) (q : Q) :
  In r csv -> date_year r = Num q ->
  (inject_Z (Z.of_nat (length csv)) <= q)%Q ->
  load_data csv = Raise KeyError.
Proof.
  intros Hin Hy Hlen. unfold load_data, loc.
  rewrite (mapM_Raise_In (loc_label csv) KeyError (Num q)); [reflexivity | | |].
  - apply loc_label_Raise.
  - apply dropna_In. split; [|reflexivity]. rewrite <- Hy. now apply in_map.
  - unfold loc_label.
    destruct (Qeq_bool q (inject_Z (Qtrunc q)) && (0 <=? Qtrunc q)%Z) eqn:E;
      [|reflexivity].
    apply andb_true_iff in E as [Eq _]. apply Qeq_bool_iff in Eq.
    rewrite Eq in Hlen. rewrite <- Zle_Qle in Hlen.
    assert (nth_error csv (Z.to_nat (Qtrunc q)) = None) as ->; [|reflexivity].
    apply nth_error_None. lia.
Qed.

Lemma load_data_needs_a_line_per_year_witness :
  load_data csv_two_unknown_waters = Raise KeyError.
Proof.
  apply (load_data_needs_a_line_per_year csv_two_unknown_waters
           (sighting (year 2005) NaN) (inject_Z 2005)).
  - now left.
  - reflexivity.
  - unfold Qle; simpl. lia.
Defined.

(* ------------------------------------------------------------------ *)
(** ** Records without year *)

Lemma key_of_record (D : DataFrame) (k : cell) :
  In k (unique (dropna (map date_year D))) ->
  exists r, In r D /\ date_year r = k /\ notna k = true.
Proof.
  intros H. apply unique_In in H. apply dropna_In in H as [H Hna].
  apply in_map_iff in H as (r & Hr & Hin). now exists r.
Qed.

Lemma dated_years (D : DataFrame) :
  map date_year (dated D) = dropna (map date_year D).
Proof.
  unfold dated, dropna. induction D as [|r t IH]; simpl; [reflexivity|].
  destruct (notna (date_year r)); simpl; congruence.
Qed.

Lemma dropna_idem (l : list cell) : dropna (dropna l) = dropna l.
Proof.
  unfold dropna. induction l as [|x t IH]; simpl; [reflexivity|].
  destruct (notna x) eqn:E; simpl; [now rewrite E, IH | assumption].
Qed.

Lemma has_str_dropna (l : list cell) : has_str (dropna l) = has_str l.
Proof.
  unfold has_str, dropna. induction l as [|x t IH]; simpl; [reflexivity|].
  destruct x; simpl; congruence.
Qed.

Lemma filter_dated (f : row -> bool) (D : DataFrame) :
  (forall r, f r = true -> notna (date_year r) = true) ->
  filter f (dated D) = filter f D.
Proof.
  intros H. unfold dated. induction D as [|r t IH]; simpl; [reflexivity|].
  destruct (notna (date_year r)) eqn:E; simpl; [now rewrite IH|].
  destruct (f r) eqn:Ef; [|assumption].
  rewrite (H r Ef) in E. discriminate.
Qed.

Lemma year_geb_notna (y : Z) (c : cell) : year_geb y c = true -> notna c = true.
Proof. destruct c; simpl; intros; try reflexivity; discriminate. Qed.

Lemma mapM_ext_in {A B : Type} (f g : A -> result B) (l : list A) :
  (forall x, In x l -> f x = g x) -> mapM f l = mapM g l.
Proof.
  induction l as [|x t IH]; intros H; simpl; [reflexivity|].
  rewrite (H x (or_introl eq_refl)), IH; [reflexivity|].
  intros z Hz. apply H. now right.
Qed.

(** Records without year contribute to no view: each of the four views is
    the same on the frame and on the frame without its records whose year is
    null ([NaN]).  For [yearly_means] this is stated for measurement
    columns that hold no text. *)
Theorem views_skip_records_without_year (S : Sorter) (M : FloatMean)
        (D : DataFrame) (field : string) (y : Z) :
  yearly_counts D = yearly_counts (dated D) /\
  (has_str (map sst D) = false -> has_str (map sss D) = false ->
   yearly_means D = yearly_means (dated D)) /\
  category_counts D field = category_counts (dated D) field /\
  filter_turtle_data D y = filter_turtle_data (dated D) y.
Proof.
  assert (has_str (map date_year (dated D)) = has_str (map date_year D)) as Hs.
  { rewrite dated_years. apply has_str_dropna. }
  assert (forall k, filter (fun r => year_geb k (date_year r)) (dated D)
                    = filter (fun r => year_geb k (date_year r)) D) as Hf.
  { intros k. apply filter_dated. intros r. apply year_geb_notna. }
  split; [|split; [|split]].
  - rewrite !yearly_counts_eq, Hs.
    unfold frame_value_counts, groupby_keys.
    now rewrite dated_years, dropna_idem.
  - intros _ _. rewrite !yearly_means_unfold.
    unfold groupby_keys at 2. rewrite dated_years, dropna_idem.
    fold (groupby_keys (map date_year D)).
    apply mapM_ext_in. intros k Hk.
    eapply Permutation_in in Hk; [|apply Permutation_sym, groupby_keys_perm].
    apply unique_dropna_notna in Hk.
    unfold group_means, group. rewrite filter_dated; [reflexivity|].
    intros r Hr. now apply (cell_eqb_notna k).
  - rewrite !category_counts_eq, Hs. now rewrite Hf.
  - rewrite !filter_turtle_data_eq, Hs. now rewrite Hf.
Qed.

Lemma views_skip_records_without_year_witness :
  yearly_counts (S := stable_sorter) two_positions
  = yearly_counts (S := stable_sorter) (dated two_positions) /\
  yearly_means (S := stable_sorter) (M := exact_mean) (sighting NaN NaN :: no_temperature)
  = yearly_means (S := stable_sorter) (M := exact_mean)
                 (dated (sighting NaN NaN :: no_temperature)).
Proof.
  split.
  - apply (views_skip_records_without_year stable_sorter exact_mean two_positions
             "waterBody" 2000).
  - apply (views_skip_records_without_year stable_sorter exact_mean
             (sighting NaN NaN :: no_temperature) "waterBody" 2000); reflexivity.
Defined.

(* ------------------------------------------------------------------ *)
(** ** The figure of [turtle_population_plot] *)

Lemma combine_fst_snd {A B : Type} (l : list (A * B)) :
  combine (map fst l) (map snd l) = l.
Proof.
  induction l as [|[a b] t IH]; simpl; [reflexivity | now rewrite IH].
Qed.

Lemma series_max_spec (l : list nat) (m : nat) :
  series_max l = Some m -> In m l /\ Forall (fun c => (c <= m)%nat) l.
Proof.
  destruct l as [|x t]; simpl; [discriminate|]. intros H. injection H as <-.
  induction t as [|y t IH]; simpl.
  - split; [now left | repeat constructor].
  - destruct IH as [Hin Hall].
    inversion Hall as [|? ? Hx Ht]; subst.
    split.
    + destruct (Nat.max_spec y (fold_right Nat.max x t)) as [[_ ->]|[_ ->]].
      * destruct Hin as [Hin|Hin]; [now left | right; now right].
      * right. now left.
    + constructor; [lia|]. constructor; [lia|].
      rewrite Forall_forall in *. intros c Hc. specialize (Ht c Hc). lia.
Qed.

Lemma eq_scalar_Num (c : cell) (z : Z) :
  eq_scalar c z = true -> exists q, c = Num q /\ (q == inject_Z z)%Q.
Proof.
  destruct c as [|q|s]; simpl; try discriminate.
  intros H. exists q. split; [reflexivity | now apply Qeq_bool_iff].
Qed.

Lemma cell_eqb_eq_scalar (k c : cell) (z : Z) :
  eq_scalar k z = true -> cell_eqb k c = eq_scalar c z.
Proof.
  intros H. apply eq_scalar_Num in H as (q & -> & Hq).
  destruct c as [|p|s]; simpl; try reflexivity.
  apply eq_true_iff_eq. rewrite !Qeq_bool_iff, Hq. split; intros E; now symmetry.
Qed.

Lemma frame_value_counts_complete (S : Sorter) (ys : list cell) (k : cell) :
  In k (unique (dropna ys)) ->
  In (k, count_eq k (dropna ys)) (frame_value_counts ys).
Proof.
  intros H. unfold frame_value_counts.
  eapply Permutation_in; [apply sort_values_perm|].
  apply in_map_iff. exists k. split; [reflexivity|].
  eapply Permutation_in; [apply groupby_keys_perm | exact H].
Qed.

(** The size of the group of a key that equals the year [z]. *)
Lemma count_of_year (D : DataFrame) (k : cell) (z : Z) :
  eq_scalar k z = true ->
  count_eq k (dropna (map date_year D)) = length (sightings_of z D).
Proof.
  intros H. rewrite count_eq_dropna.
  - unfold count_eq, sightings_of. rewrite length_filter_map.
    f_equal. apply filter_ext. intros r. now apply cell_eqb_eq_scalar.
  - apply eq_scalar_Num in H as (q & -> & _). reflexivity.
Qed.

(** The rows of [df_yearly] for the year [z] all carry the number of
    records of that year, which is above one. *)
Lemma yearly_row_of_year (S : Sorter) (D : DataFrame) (z : Z) (p : cell * nat) :
  In p (filter (fun p => eq_scalar (fst p) z)
          (filter yearly_query
             (sort_values by_year (frame_value_counts (map date_year D))))) ->
  snd p = length (sightings_of z D) /\ (1 < snd p)%nat.
Proof.
  intros H. apply filter_In in H as [H Hz]. apply filter_In in H as [H Hq].
  eapply Permutation_in in H; [|apply Permutation_sym, sort_values_perm].
  destruct p as [k n]. apply frame_value_counts_In in H as [_ ->]. simpl in *.
  split; [now apply count_of_year|].
  unfold yearly_query in Hq. apply andb_true_iff in Hq as [Hq _].
  now apply Nat.ltb_lt in Hq.
Qed.

(** [turtle_population_plot] on a frame without text in the year column:
    it returns a figure exactly when at least two records are of 2019.
    The figure then shows the yearly counts, the second annotation sits at
    the number of records of 2019 and the first at the largest count of the
    trace.  With fewer than two records of 2019 the function raises
    [IndexError] (line 73). *)
Theorem turtle_population_plot_needs_2019 (S : Sorter) (D : DataFrame) :
  has_str (map date_year D) = false ->
  ((2 <= length (sightings_of 2019 D))%nat ->
   exists fig m,
     turtle_population_plot D = Ok fig /\
     yearly_counts D = Ok (combine (trace_x fig) (trace_y fig)) /\
     annotation_2019_y fig = length (sightings_of 2019 D) /\
     annotation_2009_y fig = Some m /\
     In m (trace_y fig) /\
     Forall (fun c => (c <= m)%nat) (trace_y fig)) /\
  ((length (sightings_of 2019 D) < 2)%nat ->
   turtle_population_plot D = Raise IndexError).
Proof.
  intros Hs. unfold turtle_population_plot. rewrite yearly_counts_eq, Hs. simpl.
  set (out := filter yearly_query
                (sort_values by_year (frame_value_counts (map date_year D)))).
  pose proof (yearly_row_of_year S D 2019) as Hrow. fold out in Hrow.
  split; intros Hn.
  - assert (exists p, In p (filter (fun p => eq_scalar (fst p) 2019) out)) as (p & Hp).
    { destruct (sightings_of 2019 D) as [|r rest] eqn:E; [simpl in Hn; lia|].
      assert (In r (sightings_of 2019 D)) as Hr by (rewrite E; now left).
      apply filter_In in Hr as [Hr Hy].
      assert (In (date_year r) (dropna (map date_year D))) as Hd.
      { apply dropna_In. split; [now apply in_map|].
        apply eq_scalar_Num in Hy as (q & -> & _). reflexivity. }
      destruct (unique_complete _ _ Hd) as (k & Hk & Hkr).
      assert (eq_scalar k 2019 = true) as Hk19.
      { rewrite <- (cell_eqb_eq_scalar (date_year r) k 2019 Hy).
        now rewrite cell_eqb_sym. }
      exists (k, count_eq k (dropna (map date_year D))).
      apply filter_In. split; [|exact Hk19].
      apply filter_In. split.
      - eapply Permutation_in; [apply sort_values_perm|].
        now apply frame_value_counts_complete.
      - unfold yearly_query. simpl. apply andb_true_iff. split.
        + apply Nat.ltb_lt. rewrite (count_of_year D k 2019 Hk19), E. exact Hn.
        + apply eq_scalar_Num in Hk19 as (q & -> & Hq). simpl.
          apply Qle_bool_iff. rewrite Hq. rewrite <- Zle_Qle. lia. }
    destruct (filter (fun p => eq_scalar (fst p) 2019) out) as [|p0 rest] eqn:E;
      [contradiction|].
    destruct (Hrow p0 (or_introl eq_refl)) as [Hcount _]. simpl.
    destruct (series_max (map snd out)) as [m|] eqn:Em.
    + exists {| trace_x := map fst out; trace_y := map snd out;
                annotation_2009_y := Some m; annotation_2019_y := snd p0 |}, m.
      simpl. rewrite combine_fst_snd.
      destruct (series_max_spec _ _ Em) as [Hin Hall]. now repeat split.
    + exfalso. assert (In p0 out) as Hin.
      { assert (In p0 (p0 :: rest)) as H0 by now left.
        rewrite <- E in H0. now apply filter_In in H0. }
      destruct out; [contradiction | discriminate].
  - destruct (filter (fun p => eq_scalar (fst p) 2019) out) as [|p0 rest] eqn:E;
      [reflexivity|].
    destruct (Hrow p0 (or_introl eq_refl)) as [Hcount Hgt]. lia.
Qed.

Lemma turtle_population_plot_needs_2019_witness :
  ((2 <= length (sightings_of 2019 sightings_to_2019))%nat ->
   exists fig m,
     turtle_population_plot (S := stable_sorter) sightings_to_2019 = Ok fig /\
     yearly_counts (S := stable_sorter) sightings_to_2019
     = Ok (combine (trace_x fig) (trace_y fig)) /\
     annotation_2019_y fig = length (sightings_of 2019 sightings_to_2019) /\
     annotation_2009_y fig = Some m /\
     In m (trace_y fig) /\
     Forall (fun c => (c <= m)%nat) (trace_y fig)) /\
  ((length (sightings_of 2019 sightings_to_2019) < 2)%nat ->
   turtle_population_plot (S := stable_sorter) sightings_to_2019 = Raise IndexError).
Proof.
  apply (turtle_population_plot_needs_2019 stable_sorter sightings_to_2019).
  reflexivity.
Defined.

(* ------------------------------------------------------------------ *)
(** ** The figure of [scatter_plot] *)

Lemma groupby_keys_strict (S : Sorter) (ys : list cell) :
  StronglySorted key_lt (groupby_keys ys).
Proof.
  apply (sorted_distinct_strict (fun k => k)).
  - apply (sort_values_strongly S (fun k => k)).
  - rewrite map_id. eapply NoDupA_keq_perm; [apply groupby_keys_perm|].
    apply unique_NoDupA.
Qed.

Lemma Forall2_map_eq {A B : Type} (f : B -> A) (l : list A) (out : list B) :
  Forall2 (fun k e => f e = k) l out -> map f out = l.
Proof. induction 1; simpl; congruence. Qed.

Lemma yearly_means_keys (S : Sorter) (M : FloatMean) (D : DataFrame)
      (out : list (cell * cell * cell)) :
  yearly_means D = Ok out ->
  map (fun e => fst (fst e)) out = groupby_keys (map date_year D).
Proof.
  rewrite yearly_means_unfold. intros H. apply mapM_Forall2 in H.
  apply Forall2_map_eq.
  eapply Forall2_impl; [|exact H]. simpl. intros k e He.
  apply group_means_Ok in He as (a & b & -> & _). reflexivity.
Qed.

(** [scatter_plot]: when it returns, the two traces share one x axis, which
    lists every year of the frame that is not null exactly once, in
    ascending order (numbers before text), and each trace has one value per
    year.  It raises nothing but [TypeError], and only on a frame with text
    in one of the two measurement columns. *)
Theorem scatter_plot_axis (S : Sorter) (M : FloatMean) (D : DataFrame) :
  match scatter_plot D with
  | Ok fig =>
      sst_x fig = sss_x fig /\
      StronglySorted key_lt (sst_x fig) /\
      length (sst_y fig) = length (sst_x fig) /\
      length (sss_y fig) = length (sss_x fig) /\
      (forall r, In r D -> notna (date_year r) = true ->
         exists k, In k (sst_x fig) /\ cell_eqb k (date_year r) = true) /\
      (forall k, In k (sst_x fig) ->
         exists r, In r D /\ date_year r = k /\ notna k = true)
  | Raise e =>
      e = TypeError /\
      (has_str (map sst D) = true \/ has_str (map sss D) = true)
  end.
Proof.
  unfold scatter_plot.
  destruct (yearly_means D) as [out|e] eqn:E; simpl.
  - pose proof (yearly_means_keys S M D out E) as Hk.
    rewrite Hk, !length_map, <- Hk, length_map.
    repeat split.
    + rewrite Hk. apply groupby_keys_strict.
    + intros r Hr Hna.
      assert (In (date_year r) (dropna (map date_year D))) as Hd.
      { apply dropna_In. split; [now apply in_map | assumption]. }
      destruct (unique_complete _ _ Hd) as (k & Hin & Hkr).
      exists k. split; [|assumption]. rewrite Hk.
      eapply Permutation_in; [apply groupby_keys_perm | exact Hin].
    + intros k Hin. rewrite Hk in Hin.
      eapply Permutation_in in Hin; [|apply Permutation_sym, groupby_keys_perm].
      now apply key_of_record.
  - split; [now apply (yearly_means_Raise D e)|].
    destruct (has_str (map sst D)) eqn:H1; [now left|].
    destruct (has_str (map sss D)) eqn:H2; [now right|].
    destruct (yearly_means_total D H1 H2) as (out & Hout). congruence.
Qed.

(* ------------------------------------------------------------------ *)
(** ** [map_heatmap] *)

Lemma notna_not_str_num (c : cell) :
  notna c = true -> is_str c = false -> is_num c = true.
Proof. destruct c; simpl; intros; try reflexivity; discriminate. Qed.

Lemma no_text_In (l : list cell) (c : cell) :
  has_str l = false -> In c l -> is_str c = false.
Proof.
  intros H Hin. apply not_true_is_false. intros Hc.
  destruct c as [| |s]; try discriminate.
  assert (has_str l = true); [|congruence].
  apply has_str_iff. now exists s.
Qed.

Section Heat.
Context {M : FloatMean}.

Lemma mean_Ok_no_text (l : list cell) (c : cell) :
  mean l = Ok c -> has_str l = false.
Proof.
  unfold mean, has_str. destruct (existsb is_str l); [discriminate | reflexivity].
Qed.

Lemma mean_Raise_text (l : list cell) (e : exn) :
  mean l = Raise e -> e = TypeError /\ has_str l = true.
Proof.
  unfold mean, has_str. destruct (existsb is_str l).
  - intros H. injection H as <-. now split.
  - destruct (nums l); discriminate.
Qed.

Lemma nums_In (l : list cell) (q : Q) : In q (nums l) -> In (Num q) l.
Proof.
  induction l as [|c t IH]; simpl; [tauto|].
  destruct c as [|p|s]; simpl; intros H.
  - right. now apply IH.
  - destruct H as [->|H]; [now left | right; now apply IH].
  - right. now apply IH.
Qed.

(** A mean that is not [NaN] is a number, and the column holds a number. *)
Lemma mean_notna (l : list cell) (c : cell) :
  mean l = Ok c -> isna c = false ->
  (exists m, c = Num m) /\ (exists q, In (Num q) l).
Proof.
  unfold mean. destruct (existsb is_str l); [discriminate|].
  destruct (nums l) as [|x xs] eqn:E; intros H Hna; injection H as <-;
    [discriminate|].
  split.
  - pose proof (fmean_float (x :: xs)) as Hf.
    destruct (fmean (x :: xs)) as [|m|s]; try discriminate. now exists m.
  - exists x. apply nums_In. rewrite E. now left.
Qed.

Lemma no_text_notna_Num (l : list cell) (c : cell) :
  has_str l = false -> In c l -> notna c = true -> exists q, c = Num q.
Proof.
  intros Hs Hin Hna. destruct c as [|q|s]; [discriminate | now exists q |].
  assert (has_str l = true) by (apply has_str_iff; now exists s). congruence.
Qed.

Lemma filter_length_bound {A : Type} (f : A -> bool) (l : list A) :
  (length (filter f l) <= length l)%nat.
Proof.
  induction l as [|x t IH]; simpl; [lia|]. destruct (f x); simpl; lia.
Qed.

(** When [map_heatmap] returns and when it raises. *)
Lemma map_heatmap_cases (rows : list geo_row) :
  match map_heatmap rows with
  | Ok h =>
      has_str (map geo_latitude rows) = false /\
      has_str (map geo_longitude rows) = false /\
      heat h = heat_data rows /\
      (exists x y, location h = (Num x, Num y)) /\
      (exists g q, In g rows /\ geo_latitude g = Num q) /\
      (exists g q, In g rows /\ geo_longitude g = Num q)
  | Raise e =>
      (e = TypeError /\
       (has_str (map geo_latitude rows) = true \/
        has_str (map geo_longitude rows) = true)) \/
      (e = ValueError /\
       has_str (map geo_latitude rows) = false /\
       has_str (map geo_longitude rows) = false)
  end.
Proof.
  unfold map_heatmap.
  destruct (mean (map geo_latitude rows)) as [clat|e] eqn:Elat; simpl.
  - destruct (mean (map geo_longitude rows)) as [clon|e] eqn:Elon; simpl.
    + pose proof (mean_Ok_no_text _ _ Elat) as Hlat.
      pose proof (mean_Ok_no_text _ _ Elon) as Hlon.
      unfold validate_location.
      destruct (isna clat) eqn:Na; simpl; [right; now repeat split|].
      destruct (isna clon) eqn:No; simpl; [right; now repeat split|].
      destruct (mean_notna _ _ Elat Na) as ((x & ->) & (q & Hq)).
      destruct (mean_notna _ _ Elon No) as ((y & ->) & (p & Hp)).
      split; [assumption|]. split; [assumption|]. split; [reflexivity|].
      split; [now exists x, y|].
      apply in_map_iff in Hq as (g & Hg & Hin).
      apply in_map_iff in Hp as (g' & Hg' & Hin').
      split; [now exists g, q | now exists g', p].
    + apply mean_Raise_text in Elon as [-> Hs]. left. split; [reflexivity | now right].
  - apply mean_Raise_text in Elat as [-> Hs]. left. split; [reflexivity | now left].
Qed.

(** [map_heatmap] raises [TypeError] exactly when a coordinate column holds
    text.  Without text it raises [ValueError], from [folium.Map], when a
    coordinate of the centre is [NaN], which is the case whenever no row
    has a number as latitude or none has a number as longitude, so on every
    empty selection.  When it returns, the centre is a pair of numbers,
    every point of the heat layer is a pair of numbers and there are at most
    as many points as rows. *)
Theorem map_heatmap_points_and_centre (rows : list geo_row) :
  match map_heatmap rows with
  | Ok h =>
      has_str (map geo_latitude rows) = false /\
      has_str (map geo_longitude rows) = false /\
      (exists x y, location h = (Num x, Num y)) /\
      (exists g q, In g rows /\ geo_latitude g = Num q) /\
      (exists g q, In g rows /\ geo_longitude g = Num q) /\
      Forall (fun p => exists x y, p = (Num x, Num y)) (heat h) /\
      (length (heat h) <= length rows)%nat
  | Raise e =>
      (e = TypeError /\
       (has_str (map geo_latitude rows) = true \/
        has_str (map geo_longitude rows) = true)) \/
      (e = ValueError /\
       has_str (map geo_latitude rows) = false /\
       has_str (map geo_longitude rows) = false)
  end.
Proof.
  pose proof (map_heatmap_cases rows) as H.
  destruct (map_heatmap rows) as [h|e]; [|assumption].
  destruct H as (Hlat & Hlon & Hheat & Hc & Hx & Hy).
  repeat (split; [assumption|]). rewrite Hheat. split.
  - unfold heat_data. apply Forall_forall. intros p Hp.
    apply in_map_iff in Hp as (g & <- & Hg).
    apply filter_In in Hg as [Hg Hna]. apply andb_true_iff in Hna as [H1 H2].
    destruct (no_text_notna_Num _ (geo_latitude g) Hlat) as (x & ->);
      [now apply in_map | assumption |].
    destruct (no_text_notna_Num _ (geo_longitude g) Hlon) as (y & ->);
      [now apply in_map | assumption |].
    now exists x, y.
  - unfold heat_data. rewrite length_map. apply filter_length_bound.
Qed.

End Heat.

(* ------------------------------------------------------------------ *)
(** ** What [load_data] returns *)

Lemma filter_all {A : Type} (f : A -> bool) (l : list A) :
  (forall x, In x l -> f x = true) -> filter f l = l.
Proof.
  induction l as [|x t IH]; simpl; intros H; [reflexivity|].
  rewrite (H x (or_introl eq_refl)). f_equal. apply IH.
  intros y Hy. apply H. now right.
Qed.

(** [load_data] leaves no null behind: in the frame it returns every cell
    is a number or text.  As a consequence the [dropna] of [map_heatmap]
    removes nothing from what [filter_turtle_data] selects of that frame:
    every selected record yields a point of the heat layer, its missing
    coordinates reading "NA". *)
Theorem load_data_leaves_no_null (csv df : DataFrame) (y : Z)
        (rows : list geo_row) :
  load_data csv = Ok df ->
  Forall (fun r => no_null r = true) df /\
  (filter_turtle_data df y = Ok rows -> heat_data rows = map coordinates rows).
Proof.
  intros H. apply load_data_Ok in H as (td & _ & ->).
  assert (Forall (fun r => no_null r = true) (fillna (Str "NA") td)) as Hall.
  { apply Forall_forall. intros r Hr. unfold fillna in Hr.
    apply in_map_iff in Hr as (r0 & <- & _).
    unfold no_null, fill_row; simpl. now rewrite !fill_notna. }
  split; [assumption|].
  rewrite filter_turtle_data_eq.
  destruct (has_str (map date_year (fillna (Str "NA") td))); [discriminate|].
  intros Hrows. injection Hrows as <-.
  unfold heat_data. rewrite filter_all; [reflexivity|].
  intros g Hg. apply in_map_iff in Hg as (r & <- & Hr).
  apply filter_In in Hr as [Hr _].
  rewrite Forall_forall in Hall. specialize (Hall r Hr).
  unfold no_null in Hall. simpl.
  repeat (apply andb_true_iff in Hall as [Hall ?]).
  apply andb_true_iff. now split.
Qed.

Lemma load_data_leaves_no_null_witness :
  Forall (fun r => no_null r = true)
         [mkRow (year 2005) (Str "Pacific") (Str "Fiji") (Str "NA") (Str "NA")
                (Num 26) (Num 35);
          mkRow (year 2005) (Str "Pacific") (Str "Fiji") (Str "NA") (Str "NA")
                (Num 26) (Num 35)] /\
  (filter_turtle_data
     [mkRow (year 2005) (Str "Pacific") (Str "Fiji") (Str "NA") (Str "NA")
            (Num 26) (Num 35);
      mkRow (year 2005) (Str "Pacific") (Str "Fiji") (Str "NA") (Str "NA")
            (Num 26) (Num 35)] 2000
   = Ok [mkGeo 2005 (Str "NA") (Str "NA"); mkGeo 2005 (Str "NA") (Str "NA")] ->
   heat_data [mkGeo 2005 (Str "NA") (Str "NA"); mkGeo 2005 (Str "NA") (Str "NA")]
   = map coordinates [mkGeo 2005 (Str "NA") (Str "NA"); mkGeo 2005 (Str "NA") (Str "NA")]).
Proof.
  apply (load_data_leaves_no_null csv_unknown_position _ 2000 _).
  vm_compute. reflexivity.
Defined.

Lemma Forall2_nth_error {A B : Type} (R : A -> B -> Prop) (l : list A)
      (l' : list B) (i : nat) (x : A) :
  Forall2 R l l' -> nth_error l i = Some x ->
  exists y, nth_error l' i = Some y /\ R x y.
Proof.
  intros H. revert i. induction H as [|a b t t' Hab HF IH]; intros i Hi.
  - destruct i; discriminate.
  - destruct i as [|i]; simpl in *.
    + injection Hi as <-. now exists b.
    + now apply IH.
Qed.

Lemma loc_label_Ok (csv : DataFrame) (label : cell) (r : row) :
  loc_label csv label = Ok r ->
  exists q, label = Num q /\ (q == inject_Z (Qtrunc q))%Q /\
            (0 <= Qtrunc q)%Z /\
            nth_error csv (Z.to_nat (Qtrunc q)) = Some r.
Proof.
  unfold loc_label. destruct label as [|q|s]; try discriminate.
  destruct (Qeq_bool q (inject_Z (Qtrunc q)) && (0 <=? Qtrunc q)%Z) eqn:E;
    [|discriminate].
  apply andb_true_iff in E as [Eq Epos].
  destruct (nth_error csv (Z.to_nat (Qtrunc q))) as [r0|] eqn:En; [|discriminate].
  intros H. injection H as <-. exists q.
  split; [reflexivity|]. split; [now apply Qeq_bool_iff|].
  split; [now apply Z.leb_le | assumption].
Qed.

(** [load_data], when it returns: the frame has one row for each line of the
    file that carries a year, in the order of these lines, but the row is
    not that line: it is the line whose position in the file is the year,
    with its nulls replaced by "NA". *)
Theorem load_data_rows (csv df : DataFrame) :
  load_data csv = Ok df ->
  length df = length (dropna (map date_year csv)) /\
  forall i y, nth_error (dropna (map date_year csv)) i = Some y ->
    exists q r0,
      y = Num q /\ (q == inject_Z (Qtrunc q))%Q /\ (0 <= Qtrunc q)%Z /\
      nth_error csv (Z.to_nat (Qtrunc q)) = Some r0 /\
      nth_error df i = Some (fill_row (Str "NA") r0).
Proof.
  intros H. apply load_data_Ok in H as (td & Hloc & ->).
  unfold loc in Hloc. apply mapM_Forall2 in Hloc.
  split.
  - unfold fillna. rewrite length_map. symmetry. eapply Forall2_length, Hloc.
  - intros i y Hi.
    destruct (Forall2_nth_error _ _ _ i y Hloc Hi) as (r0 & Hr0 & Hlabel).
    apply loc_label_Ok in Hlabel as (q & -> & Hq & Hpos & Hnth).
    exists q, r0. repeat split; try assumption.
    unfold fillna. now rewrite nth_error_map, Hr0.
Qed.

Lemma load_data_rows_witness :
  length loaded_unknown_waters
  = length (dropna (map date_year csv_unknown_waters)) /\
  forall i y, nth_error (dropna (map date_year csv_unknown_waters)) i = Some y ->
    exists q r0,
      y = Num q /\ (q == inject_Z (Qtrunc q))%Q /\ (0 <= Qtrunc q)%Z /\
      nth_error csv_unknown_waters (Z.to_nat (Qtrunc q)) = Some r0 /\
      nth_error loaded_unknown_waters i = Some (fill_row (Str "NA") r0).
Proof.
  apply (load_data_rows csv_unknown_waters loaded_unknown_waters).
  vm_compute. reflexivity.
Defined.

(* ------------------------------------------------------------------ *)
(** ** The years [filter_turtle_data] returns *)

Lemma Qtrunc_ge (z : Z) (q : Q) :
  (inject_Z z <= q)%Q -> (z <= Qtrunc q)%Z.
Proof.
  unfold Qle, Qtrunc, inject_Z. destruct q as [n d]. simpl. intros H.
  apply Z.quot_le_lower_bound; lia.
Qed.

Lemma Qtrunc_le (q : Q) : (0 <= q)%Q -> (inject_Z (Qtrunc q) <= q)%Q.
Proof.
  unfold Qle, Qtrunc, inject_Z. destruct q as [n d]. simpl. intros H.
  assert (0 <= n)%Z as Hn by lia.
  destruct (Z.mul_quot_le n (Zpos d) Hn) as [_ Hle]; lia.
Qed.

Lemma Qtrunc_pos_ge (z : Z) (q : Q) :
  (0 < z)%Z -> (z <= Qtrunc q)%Z -> (inject_Z z <= q)%Q.
Proof.
  intros Hz Hle. destruct (Qlt_le_dec q 0) as [Hneg|Hpos].
  - exfalso. assert (Qtrunc q <= 0)%Z; [|lia].
    unfold Qlt, Qtrunc in *. destruct q as [n d]. simpl in *.
    apply Z.quot_le_upper_bound; lia.
  - apply Qle_trans with (inject_Z (Qtrunc q)); [|now apply Qtrunc_le].
    now rewrite <- Zle_Qle.
Qed.

(** Every row [filter_turtle_data] returns carries a year in the range of
    [int64], and it returns at most as many rows as the frame has.  When
    every year of the frame fits in [int64] and float64 represents the
    threshold exactly, the year of every row returned is at least the
    threshold; a year that does not fit comes out as the smallest [int64],
    below any threshold that selected it. *)
Theorem filter_turtle_data_years (D : DataFrame) (y : Z) (rows : list geo_row) :
  filter_turtle_data D y = Ok rows ->
  Forall (fun g => in_int64 (geo_year g) = true) rows /\
  (length rows <= length D)%nat /\
  (exact_float64 y = true ->
   Forall (fun r => year_fits (date_year r) = true) D ->
   Forall (fun g => (y <= geo_year g)%Z) rows).
Proof.
  rewrite filter_turtle_data_eq.
  destruct (has_str (map date_year D)); [discriminate|].
  intros H. injection H as <-. split; [|split].
  - apply Forall_forall. intros g Hg.
    apply in_map_iff in Hg as (r & <- & Hr). apply filter_In in Hr as [_ Hy].
    apply year_geb_Num in Hy as (q & Hq & _). now apply (geo_of_Num r q).
  - rewrite length_map. apply filter_length_bound.
  - intros _ Hfit. apply Forall_forall. intros g Hg.
    apply in_map_iff in Hg as (r & <- & Hr). apply filter_In in Hr as [Hr Hy].
    apply year_geb_Num in Hy as (q & Hq & Hle).
    rewrite Forall_forall in Hfit. specialize (Hfit r Hr).
    rewrite Hq in Hfit. simpl in Hfit.
    destruct (geo_of_Num r q Hq) as (_ & Heq & _).
    rewrite (Heq Hfit). now apply Qtrunc_ge.
Qed.

Lemma filter_turtle_data_years_witness :
  Forall (fun g => in_int64 (geo_year g) = true) [mkGeo 2010 (Num (-17)) (Num 178)] /\
  (length [mkGeo 2010 (Num (-17)) (Num 178)] <= length two_positions)%nat /\
  (exact_float64 2008 = true ->
   Forall (fun r => year_fits (date_year r) = true) two_positions ->
   Forall (fun g => (2008 <= geo_year g)%Z) [mkGeo 2010 (Num (-17)) (Num 178)]).
Proof.
  apply (filter_turtle_data_years two_positions 2008). reflexivity.
Defined.

(** A year of 2 ^ 63 is selected by every threshold and comes out as the
    smallest [int64]. *)
Example filter_turtle_data_overflow :
  filter_turtle_data [sighting (year (2 ^ 63)) (Str "Pacific")] 2000
  = Ok [mkGeo (- 2 ^ 63) NaN NaN].
Proof. reflexivity. Qed.

(* ------------------------------------------------------------------ *)
(** ** The ends of the slider (lines 284-286) and the fourth tab *)

Section SliderProperties.
Variable int_of_text : string -> option Z.

Lemma astype_int_Raise (c : cell) (e : exn) :
  astype_int c = Raise e -> e = ValueError.
Proof. destruct c; simpl; congruence. Qed.

Lemma astype_int_element_Raise (c : cell) (e : exn) :
  astype_int_element int_of_text c = Raise e ->
  (e = ValueError \/ e = OverflowError) /\
  (element_fits int_of_text c = true -> e = ValueError).
Proof.
  destruct c as [|q|s]; simpl.
  - intros H. injection H as <-. split; [now left | reflexivity].
  - destruct (in_int64 (Qtrunc q)); [discriminate|].
    intros H. injection H as <-. split; [now right | discriminate].
  - destruct (int_of_text s) as [z|].
    + destruct (in_int64 z); [discriminate|].
      intros H. injection H as <-. split; [now right | discriminate].
    + intros H. injection H as <-. split; [now left | reflexivity].
Qed.

(** A list in which one element raises makes [mapM] raise, with the error
    of one of its elements. *)
Lemma mapM_Raise_some {A B : Type} (f : A -> result B) (x : A) (e0 : exn)
      (l : list A) :
  In x l -> f x = Raise e0 ->
  exists e x', mapM f l = Raise e /\ In x' l /\ f x' = Raise e.
Proof.
  induction l as [|z t IH]; simpl; [contradiction|].
  intros Hin Hx. destruct (f z) as [b|e] eqn:Ez; simpl.
  - destruct Hin as [->|Hin]; [congruence|].
    destruct (IH Hin Hx) as (e & x' & -> & Hx' & Hf).
    exists e, x'. split; [reflexivity|]. split; [now right | assumption].
  - exists e, z. split; [reflexivity|]. split; [now left | assumption].
Qed.

Lemma years_as_int_float (D : DataFrame) :
  has_str (map date_year D) = false ->
  years_as_int int_of_text D = mapM (fun r => astype_int (date_year r)) D.
Proof. intros H. unfold years_as_int. fold (has_str (map date_year D)). now rewrite H. Qed.

Lemma years_as_int_numeric (D : DataFrame) :
  Forall (fun r => is_num (date_year r) = true) D ->
  years_as_int int_of_text D = Ok (map (fun r => geo_year (geo_of r)) D).
Proof.
  intros H.
  assert (has_str (map date_year D) = false) as Hs.
  { apply not_true_is_false. intros Hc. apply has_str_iff in Hc as (s & Hin).
    apply in_map_iff in Hin as (r & Hr & Hin).
    rewrite Forall_forall in H. specialize (H r Hin). rewrite Hr in H. discriminate. }
  rewrite (years_as_int_float D Hs). apply mapM_map. intros r Hr.
  rewrite Forall_forall in H. specialize (H r Hr). unfold geo_of.
  destruct (date_year r); simpl in *; try discriminate. reflexivity.
Qed.

(** A column that [astype(int)] accepts and that holds no text holds
    numbers only. *)
Lemma years_as_int_Ok_numeric (D : DataFrame) (ys : list Z) :
  has_str (map date_year D) = false ->
  years_as_int int_of_text D = Ok ys ->
  Forall (fun r => is_num (date_year r) = true) D.
Proof.
  intros Hs H. rewrite (years_as_int_float D Hs) in H.
  apply mapM_Forall2 in H. apply Forall_forall. intros r Hr.
  eapply Forall2_In_l in H as (z & _ & Hz); [|exact Hr].
  destruct (date_year r) as [|q|s] eqn:E; simpl in *; [discriminate | reflexivity |].
  discriminate.
Qed.

Lemma filter_combine_map {A B : Type} (g : A -> B) (p : B -> bool) (l : list A) :
  map fst (filter (fun x => p (snd x)) (combine l (map g l)))
  = filter (fun x => p (g x)) l.
Proof.
  induction l as [|x t IH]; simpl; [reflexivity|].
  destruct (p (g x)); simpl; now rewrite IH.
Qed.

Lemma filtered_years_numeric (D : DataFrame) :
  Forall (fun r => is_num (date_year r) = true) D ->
  filtered_years int_of_text D
  = Ok (filter (fun r => (1992 <=? geo_year (geo_of r))%Z) D).
Proof.
  intros H. unfold filtered_years. rewrite (years_as_int_numeric D H). simpl.
  now rewrite (filter_combine_map (fun r => geo_year (geo_of r))
                                  (fun z => (1992 <=? z)%Z)).
Qed.

Lemma Forall_filter_numeric (f : row -> bool) (D : DataFrame) :
  Forall (fun r => is_num (date_year r) = true) D ->
  Forall (fun r => is_num (date_year r) = true) (filter f D).
Proof.
  rewrite !Forall_forall. intros H r Hr. apply filter_In in Hr as [Hr _]. now apply H.
Qed.

Lemma series_min_spec (l : list Z) (a : Z) :
  series_min l = Some a -> In a l /\ Forall (fun z => (a <= z)%Z) l.
Proof.
  destruct l as [|x t]; simpl; [discriminate|]. intros H. injection H as <-.
  induction t as [|y t IH]; simpl.
  - split; [now left | repeat constructor; lia].
  - destruct IH as [Hin Hall]. inversion Hall as [|? ? Hx Ht]; subst.
    split.
    + destruct (Z.min_spec y (fold_right Z.min x t)) as [[_ ->]|[_ ->]].
      * right. now left.
      * destruct Hin as [Hin|Hin]; [now left | right; now right].
    + constructor; [lia|]. constructor; [lia|].
      rewrite Forall_forall in *. intros c Hc. specialize (Ht c Hc). lia.
Qed.

Lemma series_max_int_spec (l : list Z) (b : Z) :
  series_max_int l = Some b -> In b l /\ Forall (fun z => (z <= b)%Z) l.
Proof.
  destruct l as [|x t]; simpl; [discriminate|]. intros H. injection H as <-.
  induction t as [|y t IH]; simpl.
  - split; [now left | repeat constructor; lia].
  - destruct IH as [Hin Hall]. inversion Hall as [|? ? Hx Ht]; subst.
    split.
    + destruct (Z.max_spec y (fold_right Z.max x t)) as [[_ ->]|[_ ->]].
      * destruct Hin as [Hin|Hin]; [now left | right; now right].
      * right. now left.
    + constructor; [lia|]. constructor; [lia|].
      rewrite Forall_forall in *. intros c Hc. specialize (Ht c Hc). lia.
Qed.

(** What the two ends of the slider are, on a frame of numeric years. *)
Lemma slider_ends_numeric (D : DataFrame) :
  Forall (fun r => is_num (date_year r) = true) D ->
  first_date int_of_text D
  = Ok (series_min (map (fun r => geo_year (geo_of r))
                        (filter (fun r => (1992 <=? geo_year (geo_of r))%Z) D))) /\
  last_date int_of_text D
  = Ok (series_max_int (map (fun r => geo_year (geo_of r))
                            (filter (fun r => (1992 <=? geo_year (geo_of r))%Z) D))).
Proof.
  intros H. unfold first_date, last_date.
  rewrite (filtered_years_numeric D H). simpl.
  rewrite (years_as_int_numeric _ (Forall_filter_numeric _ D H)). now split.
Qed.

Lemma first_date_Ok_numeric (D : DataFrame) (a : option Z) :
  has_str (map date_year D) = false ->
  first_date int_of_text D = Ok a ->
  Forall (fun r => is_num (date_year r) = true) D.
Proof.
  intros Hs H. unfold first_date, filtered_years in H.
  destruct (years_as_int int_of_text D) as [ys|e] eqn:E; [|discriminate].
  now apply (years_as_int_Ok_numeric D ys).
Qed.

(** The slider and the map.  On a frame without text in the year column,
    when the script has computed the two ends [a] and [b] of the slider:
    [1992 <= a <= b]; at every position between [a] and [b]
    [filter_turtle_data] returns at least one row; and when every year of
    the frame fits in [int64], the map at the initial position [a] is drawn
    from exactly the rows of [filtered_years], the records of 1992 and
    later.  (A year that does not fit is cast to the smallest [int64]: line
    284 leaves the record out, [filter_turtle_data] keeps it.) *)
Theorem slider_positions (D : DataFrame) (a b : Z) :
  has_str (map date_year D) = false ->
  first_date int_of_text D = Ok (Some a) ->
  last_date int_of_text D = Ok (Some b) ->
  (1992 <= a /\ a <= b)%Z /\
  (exists fy, filtered_years int_of_text D = Ok fy /\
              (Forall (fun r => year_fits (date_year r) = true) D ->
               filter_turtle_data D a = Ok (map geo_of fy))) /\
  (forall selected_date, (a <= selected_date /\ selected_date <= b)%Z ->
     exists g rows, filter_turtle_data D selected_date = Ok (g :: rows)).
Proof.
  intros Hs Ha Hb.
  pose proof (first_date_Ok_numeric D _ Hs Ha) as Hnum.
  destruct (slider_ends_numeric D Hnum) as [Ea Eb].
  rewrite Ea in Ha. rewrite Eb in Hb.
  injection Ha as Ha. injection Hb as Hb.
  apply series_min_spec in Ha as [Hain Hamin].
  apply series_max_int_spec in Hb as [Hbin Hbmax].
  set (fy := filter (fun r => (1992 <=? geo_year (geo_of r))%Z) D) in *.
  assert (1992 <= a)%Z as Ha92.
  { apply in_map_iff in Hain as (r & <- & Hr).
    apply filter_In in Hr as [_ Hr]. now apply Z.leb_le in Hr. }
  assert (forall r, In r D -> exists q, date_year r = Num q) as Hq.
  { intros r Hr. rewrite Forall_forall in Hnum. specialize (Hnum r Hr).
    destruct (date_year r) as [|q|s]; simpl in *; try discriminate. now exists q. }
  split; [|split].
  - split; [assumption|]. rewrite Forall_forall in Hbmax. now apply Hbmax.
  - exists fy. split; [now apply filtered_years_numeric|].
    intros Hfit. rewrite filter_turtle_data_eq, Hs. do 2 f_equal. unfold fy.
    apply filter_ext_in. intros r Hr. destruct (Hq r Hr) as (q & Eq).
    rewrite Forall_forall in Hfit. specialize (Hfit r Hr).
    rewrite Eq in Hfit. simpl in Hfit.
    pose proof (cast_int64_fits _ Hfit) as Hc.
    unfold geo_of. rewrite Eq. simpl. rewrite Hc.
    apply eq_true_iff_eq. rewrite Qle_bool_iff, Z.leb_le. split; intros H.
    + apply Qtrunc_ge in H. lia.
    + apply Qtrunc_pos_ge; [lia|].
      rewrite Forall_forall in Hamin. apply Hamin.
      apply in_map_iff. exists r. split.
      * unfold geo_of. rewrite Eq. simpl. exact Hc.
      * apply filter_In. split; [assumption|].
        unfold geo_of. rewrite Eq. simpl. rewrite Hc. now apply Z.leb_le.
  - intros selected_date [Hsa Hsb].
    rewrite filter_turtle_data_eq, Hs.
    apply in_map_iff in Hbin as (r & Hrb & Hr).
    apply filter_In in Hr as [Hr _].
    assert (In r (filter (fun r => year_geb selected_date (date_year r)) D)) as Hin.
    { apply filter_In. split; [assumption|].
      destruct (Hq r Hr) as (q & Eq). rewrite Eq. simpl. apply Qle_bool_iff.
      apply Qtrunc_pos_ge; [lia|].
      unfold geo_of in Hrb. rewrite Eq in Hrb. simpl in Hrb.
      rewrite cast_int64_above in Hrb; [lia|].
      rewrite Hrb. unfold int64_min. lia. }
    destruct (filter (fun r => year_geb selected_date (date_year r)) D)
      as [|r0 rest]; [contradiction|].
    simpl. now exists (geo_of r0), (map geo_of rest).
Qed.

(** The script stops at line 284 as soon as one record of the loaded frame
    has no year: a null, or the marker "NA" that [load_data] writes for it.
    The error is [ValueError] when every year of the frame fits in [int64];
    on a column that holds text a year that does not fit raises
    [OverflowError] if it comes first. *)
Theorem script_stops_on_missing_year (D : DataFrame) (r : row) :
  int_of_text "NA" = None ->
  In r D -> date_year r = NaN \/ date_year r = Str "NA" ->
  exists e,
    filtered_years int_of_text D = Raise e /\
    first_date int_of_text D = Raise e /\
    last_date int_of_text D = Raise e /\
    (e = ValueError \/ e = OverflowError) /\
    (Forall (fun r => element_fits int_of_text (date_year r) = true) D ->
     e = ValueError).
Proof.
  intros HNA Hr Hy.
  assert (exists e, years_as_int int_of_text D = Raise e /\
                    (e = ValueError \/ e = OverflowError) /\
                    (Forall (fun r => element_fits int_of_text (date_year r) = true) D ->
                     e = ValueError)) as (e & E & He & Hfit).
  { unfold years_as_int. destruct (existsb is_str (map date_year D)) eqn:Hs.
    - destruct (mapM_Raise_some (fun r => astype_int_element int_of_text (date_year r))
                                r ValueError D Hr) as (e & x & -> & Hx & Hf).
      { destruct Hy as [-> | ->]; simpl; [reflexivity | now rewrite HNA]. }
      exists e. split; [reflexivity|].
      apply astype_int_element_Raise in Hf as [He Hfit]. split; [assumption|].
      intros Hall. apply Hfit. rewrite Forall_forall in Hall. now apply Hall.
    - exists ValueError. split; [|split; [now left | reflexivity]].
      apply (mapM_Raise_In _ ValueError r); [|assumption|].
      + intros r' e. apply astype_int_Raise.
      + destruct Hy as [-> | ->]; reflexivity. }
  exists e. unfold first_date, last_date, filtered_years. rewrite E.
  now repeat split.
Qed.

End SliderProperties.

Lemma slider_positions_witness :
  (1992 <= 2005 /\ 2005 <= 2019)%Z /\
  (exists fy, filtered_years (fun _ => None) sightings_to_2019 = Ok fy /\
              (Forall (fun r => year_fits (date_year r) = true) sightings_to_2019 ->
               filter_turtle_data sightings_to_2019 2005 = Ok (map geo_of fy))) /\
  (forall selected_date, (2005 <= selected_date /\ selected_date <= 2019)%Z ->
     exists g rows, filter_turtle_data sightings_to_2019 selected_date = Ok (g :: rows)).
Proof.
  apply (slider_positions (fun _ => None) sightings_to_2019 2005 2019); reflexivity.
Defined.

Lemma script_stops_on_missing_year_witness :
  exists e,
    filtered_years (fun _ => None) filled_year = Raise e /\
    first_date (fun _ => None) filled_year = Raise e /\
    last_date (fun _ => None) filled_year = Raise e /\
    (e = ValueError \/ e = OverflowError) /\
    (Forall (fun r => element_fits (fun _ => None) (date_year r) = true) filled_year ->
     e = ValueError).
Proof.
  apply (script_stops_on_missing_year (fun _ => None) filled_year
           (sighting (Str "NA") (Str "Pacific"))).
  - reflexivity.
  - now left.
  - now right.
Defined.

(** Line 284 on years that do not fit in [int64].  On a float64 column the
    year is cast to the smallest [int64] and the record is left out of
    [filtered_years]; on a column that holds text the conversion raises
    [OverflowError], here before it reaches the record without year. *)
Example filtered_years_overflow :
  filtered_years (fun _ => None)
    [sighting (year (2 ^ 63)) (Str "Pacific"); sighting (year 2005) (Str "Pacific")]
  = Ok [sighting (year 2005) (Str "Pacific")] /\
  filtered_years (fun _ => None)
    [sighting (year (2 ^ 63)) (Str "Pacific"); sighting (Str "NA") (Str "Pacific")]
  = Raise OverflowError.
Proof. split; reflexivity. Qed.

Section FourthTab.
Context {M : FloatMean}.


End FourthTab.


(** The map of an empty selection: [folium.Map] refuses the centre. *)
Example tab4_empty_selection (M : FloatMean) :
  tab4 two_positions 2020 = Raise ValueError.
Proof. reflexivity. Qed.

(* ------------------------------------------------------------------ *)
(** ** The slices of [pie_plot] *)

Lemma list_sum_perm (l l' : list nat) :
  Permutation l l' -> list_sum l = list_sum l'.
Proof.
  induction 1 as [|x l l' HP IH|x y l|l l' l'' HP1 IH1 HP2 IH2]; simpl; lia.
Qed.

Lemma filter_split_length {A : Type} (f : A -> bool) (l : list A) :
  (length (filter f l) + length (filter (fun x => negb (f x)) l) = length l)%nat.
Proof.
  induction l as [|x t IH]; simpl; [reflexivity|].
  destruct (f x); simpl; lia.
Qed.

Lemma count_eq_filter_other (k k' : cell) (l : list cell) :
  cell_eqb k k' = false ->
  count_eq k' (filter (fun x => negb (cell_eqb k x)) l) = count_eq k' l.
Proof.
  intros Hk. unfold count_eq.
  induction l as [|x t IH]; simpl; [reflexivity|].
  destruct (cell_eqb k x) eqn:Ekx; simpl.
  - destruct (cell_eqb k' x) eqn:Ek'x; simpl; [|assumption].
    exfalso. rewrite cell_eqb_sym in Ek'x.
    rewrite (cell_eqb_trans k x k' Ekx Ek'x) in Hk. discriminate.
  - destruct (cell_eqb k' x); simpl; congruence.
Qed.

(** Keys that are pairwise different and cover a column split it: their
    counts add up to its length. *)
Lemma count_eq_sum (ks l : list cell) :
  NoDupA keq ks ->
  (forall x, In x l -> exists k, In k ks /\ cell_eqb k x = true) ->
  list_sum (map (fun k => count_eq k l) ks) = length l.
Proof.
  revert l. induction ks as [|k ks IH]; intros l Hnd Hc; simpl.
  - destruct l as [|x t]; [reflexivity|].
    destruct (Hc x (or_introl eq_refl)) as (k & [] & _).
  - inversion Hnd as [|? ? Hk Hnd']; subst.
    rewrite <- (filter_split_length (cell_eqb k) l).
    f_equal.
    rewrite <- (IH (filter (fun x => negb (cell_eqb k x)) l) Hnd').
    + apply f_equal, map_ext_in. intros k' Hk'. symmetry.
      apply count_eq_filter_other.
      destruct (cell_eqb k k') eqn:E; [|reflexivity].
      exfalso. apply Hk. apply InA_alt. exists k'. split; assumption.
    + intros x Hx. apply filter_In in Hx as [Hx Hne].
      destruct (Hc x Hx) as (k' & [<-|Hin] & He).
      * rewrite He in Hne. discriminate.
      * exists k'. now split.
Qed.

Lemma count_eq_pos (k : cell) (l : list cell) : In k l -> (1 <= count_eq k l)%nat.
Proof.
  intros H. unfold count_eq.
  assert (In k (filter (cell_eqb k) l)) as Hin.
  { apply filter_In. split; [assumption | apply cell_eqb_refl]. }
  destruct (filter (cell_eqb k) l); [destruct Hin | simpl; lia].
Qed.

Lemma list_sum_more_than_one (l : list (cell * nat)) :
  Forall (fun p => (1 <= snd p)%nat) l ->
  (list_sum (map snd (filter more_than_one l))
   + length (filter (fun p => (snd p =? 1)%nat) l) = list_sum (map snd l))%nat.
Proof.
  unfold more_than_one.
  induction 1 as [|p t Hp Ht IH]; simpl; [reflexivity|].
  destruct (Nat.ltb_spec 1 (snd p)); destruct (Nat.eqb_spec (snd p) 1); simpl; lia.
Qed.

Lemma NoDupA_map_fst_filter (f : cell * nat -> bool) (l : list (cell * nat)) :
  NoDupA keq (map fst l) -> NoDupA keq (map fst (filter f l)).
Proof.
  induction l as [|p t IH]; simpl; intros H; [constructor|].
  inversion H as [|? ? Hp Ht]; subst.
  destruct (f p); simpl; [|now apply IH].
  constructor; [|now apply IH].
  intros Hin. apply Hp. apply InA_alt in Hin as (c & Hc & Hin).
  apply InA_alt. exists c. split; [assumption|].
  apply in_map_iff in Hin as (q & <- & Hq). apply filter_In in Hq as [Hq _].
  now apply in_map.
Qed.

Lemma value_counts_arraylike_fst (col : list cell) :
  map fst (value_counts_arraylike col) = unique (dropna col).
Proof.
  unfold value_counts_arraylike. rewrite map_map. simpl. apply map_id.
Qed.

Lemma filter_filter_length {A : Type} (f g : A -> bool) (l : list A) :
  length (filter g (filter f l)) = length (filter (fun x => f x && g x) l).
Proof.
  induction l as [|x t IH]; simpl; [reflexivity|].
  destruct (f x); simpl; [destruct (g x); simpl; congruence | assumption].
Qed.

(** The slices of a pie.  On a frame without text in the year column and
    for an existing column, [pie_plot] returns a figure with one value per
    label, labels that are pairwise different and never null, and values
    that add up to the number of records of 2000 or later with a category,
    less one for each category that a single record carries. *)
Theorem pie_plot_slices (S : Sorter) (D : DataFrame) (field : string)
        (proj : row -> cell) :
  column_of field = Some proj ->
  has_str (map date_year D) = false ->
  exists fig,
    pie_plot D field = Ok fig /\
    length (labels fig) = length (values fig) /\
    NoDupA keq (labels fig) /\
    Forall (fun c => notna c = true) (labels fig) /\
    (list_sum (values fig) + length (seen_once D proj) = length (recorded D proj))%nat.
Proof.
  intros Hcol Hs. unfold pie_plot. rewrite category_counts_eq, Hs, Hcol. simpl.
  eexists. split; [reflexivity|]. simpl.
  set (col := map proj (filter (fun r => year_geb 2000 (date_year r)) D)).
  pose proof (value_counts_perm col) as HP.
  split; [now rewrite !length_map|].
  split.
  { apply NoDupA_map_fst_filter.
    apply (NoDupA_keq_perm (map fst (value_counts_arraylike col))).
    - now apply Permutation_map.
    - rewrite value_counts_arraylike_fst. apply unique_NoDupA. }
  split.
  { apply Forall_forall. intros c Hc.
    apply in_map_iff in Hc as ([c' n] & <- & Hin). simpl.
    apply filter_In in Hin as [Hin _].
    apply value_counts_In in Hin as [Hin _].
    now apply unique_dropna_notna in Hin. }
  assert (list_sum (map snd (value_counts col)) = length (recorded D proj)) as Hsum.
  { rewrite <- (list_sum_perm _ _ (Permutation_map snd HP)).
    unfold value_counts_arraylike. rewrite map_map. simpl.
    rewrite count_eq_sum.
    - unfold recorded, dropna, col. rewrite length_filter_map.
      apply filter_filter_length.
    - apply unique_NoDupA.
    - intros x Hx. now apply unique_complete. }
  assert (length (filter (fun p => (snd p =? 1)%nat) (value_counts col))
          = length (seen_once D proj)) as Hone.
  { rewrite <- (Permutation_length (Permutation_filter _ _ _ HP)).
    unfold value_counts_arraylike. rewrite length_filter_map. simpl.
    unfold seen_once. fold col. f_equal. apply filter_ext_in. intros k Hk.
    apply unique_dropna_notna in Hk.
    unfold counted, col. now rewrite count_eq_dropna, count_eq_map_filter. }
  rewrite <- Hsum, <- Hone. apply list_sum_more_than_one.
  apply Forall_forall. intros [k n] Hin. simpl.
  apply value_counts_In in Hin as [Hin ->].
  apply count_eq_pos. now apply unique_In in Hin.
Qed.

Lemma pie_plot_slices_witness :
  exists fig,
    pie_plot (S := stable_sorter) three_waters "waterBody" = Ok fig /\
    length (labels fig) = length (values fig) /\
    NoDupA keq (labels fig) /\
    Forall (fun c => notna c = true) (labels fig) /\
    (list_sum (values fig) + length (seen_once three_waters waterBody)
     = length (recorded three_waters waterBody))%nat.
Proof.
  apply (pie_plot_slices stable_sorter three_waters "waterBody" waterBody); reflexivity.
Defined.

(* ------------------------------------------------------------------ *)
(** ** The second tab on the loaded frame *)

(** [scatter_plot] after [load_data]: the chart is drawn only if every
    record of the loaded frame has both measurements.  A measurement that
    is missing reads "NA" after [load_data], and the mean over the year of
    that record raises [TypeError]. *)
Theorem scatter_plot_after_load_data (S : Sorter) (M : FloatMean)
        (csv df : DataFrame) :
  load_data csv = Ok df ->
  match scatter_plot df with
  | Ok fig =>
      Forall (fun r => is_num (sst r) = true /\ is_num (sss r) = true) df
  | Raise e =>
      e = TypeError /\
      exists r, In r df /\ (is_str (sst r) = true \/ is_str (sss r) = true)
  end.
Proof.
  intros Hload. unfold scatter_plot.
  destruct (yearly_means df) as [out|e] eqn:E; simpl.
  - apply Forall_forall. intros r Hr.
    pose proof (load_data_no_null csv df r Hload Hr) as Hnn.
    unfold no_null in Hnn. repeat (apply andb_true_iff in Hnn as [Hnn ?]).
    assert (In (date_year r) (dropna (map date_year df))) as Hy.
    { apply dropna_In. split; [now apply in_map | assumption]. }
    apply unique_complete in Hy as (k & Hk & Hkr).
    destruct (yearly_means_complete df out k E Hk) as (e & _ & He).
    apply group_means_Ok in He as (a & b & _ & Ha & Hb).
    apply mean_Ok_no_text in Ha. apply mean_Ok_no_text in Hb.
    assert (In r (group df k)) as Hg by (apply filter_In; now split).
    split; apply notna_not_str_num; try assumption.
    + apply (no_text_In (map sst (group df k))); [assumption | now apply in_map].
    + apply (no_text_In (map sss (group df k))); [assumption | now apply in_map].
  - rewrite yearly_means_unfold in E.
    apply mapM_Raise in E as (k & _ & E). unfold group_means in E.
    destruct (mean (map sst (group df k))) as [a|e1] eqn:E1; simpl in E.
    + destruct (mean (map sss (group df k))) as [b|e2] eqn:E2; simpl in E;
        [discriminate|].
      injection E as <-. apply mean_Raise_text in E2 as [-> Hs].
      split; [reflexivity|].
      apply has_str_iff in Hs as (s & Hs).
      apply in_map_iff in Hs as (r & Hr & Hin). apply filter_In in Hin as [Hin _].
      exists r. split; [assumption|]. right. now rewrite Hr.
    + injection E as <-. apply mean_Raise_text in E1 as [-> Hs].
      split; [reflexivity|].
      apply has_str_iff in Hs as (s & Hs).
      apply in_map_iff in Hs as (r & Hr & Hin). apply filter_In in Hin as [Hin _].
      exists r. split; [assumption|]. left. now rewrite Hr.
Qed.

Lemma scatter_plot_after_load_data_witness :
  match scatter_plot (S := stable_sorter) (M := exact_mean)
         [mkRow (year 2005) (Str "Pacific") (Str "Fiji") (Str "NA") (Str "NA")
                (Num 26) (Num 35);
          mkRow (year 2005) (Str "Pacific") (Str "Fiji") (Str "NA") (Str "NA")
                (Num 26) (Num 35)] with
  | Ok fig =>
      Forall (fun r => is_num (sst r) = true /\ is_num (sss r) = true)
         [mkRow (year 2005) (Str "Pacific") (Str "Fiji") (Str "NA") (Str "NA")
                (Num 26) (Num 35);
          mkRow (year 2005) (Str "Pacific") (Str "Fiji") (Str "NA") (Str "NA")
                (Num 26) (Num 35)]
  | Raise e =>
      e = TypeError /\
      exists r,
        In r
         [mkRow (year 2005) (Str "Pacific") (Str "Fiji") (Str "NA") (Str "NA")
                (Num 26) (Num 35);
          mkRow (year 2005) (Str "Pacific") (Str "Fiji") (Str "NA") (Str "NA")
                (Num 26) (Num 35)] /\
        (is_str (sst r) = true \/ is_str (sss r) = true)
  end.
Proof.
  apply (scatter_plot_after_load_data stable_sorter exact_mean csv_unknown_position).
  vm_compute. reflexivity.
Defined.
